(** * Schema verification script: a model of scripts/verify_json_schema.py

    The script collects JSON Schema documents from [.json] files and from
    fenced blocks of Markdown files, then checks each one for the Draft 07
    dialect and against the Draft 07 meta-schema.  This file embeds the
    script function by function and proves the properties its
    specification states about it.

    Layout: Python text, JSON values and exceptions; the interfaces of the
    libraries the script calls (pathlib, json, jsonschema); the script; a
    concrete runtime with small file trees; lemmas; the theorems, one per
    specified property; the script run on the file trees; further properties
    of the script and their runs on the file trees. *)

From Stdlib Require Import List NArith ZArith Bool Ascii String Lia Arith Sorted.
From Stdlib Require Import DecimalString DecimalNat.
Import ListNotations.

Local Open Scope list_scope.

(* ------------------------------------------------------------------ *)
(** ** Python text *)

(** A Python [str] is a sequence of Unicode code points. *)
Definition pystr : Type := list N.

(** A string literal of the source (all of them are ASCII). *)
Definition lit (s : string) : pystr := map N_of_ascii (list_ascii_of_string s).
Arguments lit s%_string.

Fixpoint pystr_eqb (a b : pystr) : bool :=
  match a, b with
  | [], [] => true
  | x :: a', y :: b' => N.eqb x y && pystr_eqb a' b'
  | _, _ => false
  end.

(** [str.isspace] on one code point: the characters [str.strip] removes and
    the regular expression class [\s] matches on [str] patterns. *)
Definition isspace (c : N) : bool :=
  ((0x09 <=? c) && (c <=? 0x0D) || (0x1C <=? c) && (c <=? 0x20)
   || (c =? 0x85) || (c =? 0xA0) || (c =? 0x1680)
   || (0x2000 <=? c) && (c <=? 0x200A)
   || (c =? 0x2028) || (c =? 0x2029) || (c =? 0x202F) || (c =? 0x205F)
   || (c =? 0x3000))%N.

Fixpoint lstrip (s : pystr) : pystr :=
  match s with
  | c :: s' => if isspace c then lstrip s' else s
  | [] => []
  end.

Definition rstrip (s : pystr) : pystr := rev (lstrip (rev s)).

(** [s.strip()] *)
Definition strip (s : pystr) : pystr := rstrip (lstrip s).

(** [s.startswith(prefix)] *)
Fixpoint startswith (s prefix : pystr) : bool :=
  match prefix, s with
  | [], _ => true
  | p :: prefix', c :: s' => N.eqb c p && startswith s' prefix'
  | _ :: _, [] => false
  end.

(** [sep.join(parts)] *)
Fixpoint join (sep : pystr) (parts : list pystr) : pystr :=
  match parts with
  | [] => []
  | [p] => p
  | p :: rest => p ++ sep ++ join sep rest
  end.

(** The line boundaries of [str.splitlines] other than carriage return. *)
Definition is_linebreak (c : N) : bool :=
  ((c =? 0x0A) || (c =? 0x0B) || (c =? 0x0C) || (c =? 0x1C) || (c =? 0x1D)
   || (c =? 0x1E) || (c =? 0x85) || (c =? 0x2028) || (c =? 0x2029))%N.

(** [splitlines_from cur s]: [cur] is the line being read, last character
    first.  A carriage return followed by a line feed is one boundary. *)
Fixpoint splitlines_from (cur s : pystr) : list pystr :=
  match s with
  | [] => match cur with [] => [] | _ => [rev cur] end
  | c :: s' =>
      if (c =? 0x0D)%N then
        match s' with
        | c' :: s'' =>
            if (c' =? 0x0A)%N then rev cur :: splitlines_from [] s''
            else rev cur :: splitlines_from [] s'
        | [] => rev cur :: splitlines_from [] s'
        end
      else if is_linebreak c then rev cur :: splitlines_from [] s'
      else splitlines_from (c :: cur) s'
  end.

(** [s.splitlines()] *)
Definition splitlines (s : pystr) : list pystr := splitlines_from [] s.

(** [str(n)] for a non-negative integer. *)
Definition str_of_nat (n : nat) : pystr :=
  lit (NilEmpty.string_of_uint (Nat.to_uint n)).

(** A decimal digit, the characters [str(n)] is made of. *)
Definition is_decimal_digit (c : N) : bool := ((0x30 <=? c) && (c <=? 0x39))%N.

(** [enumerate(xs, start)] *)
Fixpoint enumerate {A : Type} (start : nat) (xs : list A) : list (nat * A) :=
  match xs with
  | [] => []
  | x :: xs' => (start, x) :: enumerate (S start) xs'
  end.

(* ------------------------------------------------------------------ *)
(** ** JSON values, decode errors, exceptions *)

(** What [json.loads] returns: [None], [bool], [int], [float], [str], [list]
    and [dict].  A [dict] keeps its pairs in insertion order with distinct
    keys.  A float is kept as the numeral it was read from; the script never
    computes with one. *)
Unset Elimination Schemes.
Inductive JsonValue : Type :=
| JNull
| JBool (b : bool)
| JInt (n : Z)
| JFloat (numeral : pystr)
| JStr (s : pystr)
| JArr (items : list JsonValue)
| JObj (pairs : list (pystr * JsonValue)).
Set Elimination Schemes.

(** [json.JSONDecodeError(msg, doc, pos)] *)
Record JSONDecodeError : Type := mkJSONDecodeError {
  msg : pystr;
  doc : pystr;
  pos : nat
}.

(** The [schema: object] slot of a source holds what [json.loads] returned
    or the [JSONDecodeError] it raised. *)
Inductive PyObject : Type :=
| PyJson (v : JsonValue)
| PyDecodeError (e : JSONDecodeError).

Inductive PyException : Type :=
| ExcJSONDecodeError (e : JSONDecodeError)
| ExcTypeError (message : pystr)
| ExcOSError (message : pystr)
| ExcUnicodeDecodeError
| ExcRecursionError (message : pystr)
| ExcValueError (message : pystr).

(** A computation that returns or raises. *)
Inductive Exc (A : Type) : Type :=
| Return (a : A)
| Raise (e : PyException).
Arguments Return {A} a.
Arguments Raise {A} e.

Definition bind {A B : Type} (m : Exc A) (k : A -> Exc B) : Exc B :=
  match m with
  | Return a => k a
  | Raise e => Raise e
  end.

Declare Scope exc_scope.
Delimit Scope exc_scope with exc.
Notation "x <- m ;; k" := (bind m (fun x => k))
  (at level 61, m at next level, right associativity) : exc_scope.
Local Open Scope exc_scope.

(** [d.get(key)]: the value stored under [key], Python's [None] (the decoded
    JSON [null]) when the key is absent. *)
Fixpoint dict_get (pairs : list (pystr * JsonValue)) (key : pystr) : JsonValue :=
  match pairs with
  | [] => JNull
  | (k, v) :: rest => if pystr_eqb k key then v else dict_get rest key
  end.

(** [d[key] = value]: an existing key keeps its place. *)
Fixpoint dict_set (pairs : list (pystr * JsonValue)) (key : pystr) (value : JsonValue)
  : list (pystr * JsonValue) :=
  match pairs with
  | [] => [(key, value)]
  | (k, v) :: rest =>
      if pystr_eqb k key then (k, value) :: rest
      else (k, v) :: dict_set rest key value
  end.

(** [x in S] for a set [S] of strings.  The set hashes [x] first: a [list]
    or a [dict] is unhashable and the test raises [TypeError]; any other
    value is in the set when it is a string equal to an element. *)
Definition set_contains (S : list pystr) (x : JsonValue) : Exc bool :=
  match x with
  | JArr _ => Raise (ExcTypeError (lit "unhashable type: 'list'"))
  | JObj _ => Raise (ExcTypeError (lit "unhashable type: 'dict'"))
  | JStr s => Return (existsb (pystr_eqb s) S)
  | JNull | JBool _ | JInt _ | JFloat _ => Return false
  end.

(* ------------------------------------------------------------------ *)
(** ** The libraries and the host the script runs on *)

(** What the script imports and does not define: [pathlib.Path] and its
    pure operations, [str.lower], [repr], [json.loads],
    [Draft7Validator.check_schema], and the directory two levels above the
    script file.  The theorems hold for every implementation of them. *)
Class Runtime : Type := {
  Path : Type;
  (** [str(path)] *)
  path_str : Path -> pystr;
  (** [path.parent] *)
  parent : Path -> Path;
  (** [path / segment] *)
  joinpath : Path -> pystr -> Path;
  (** [path.suffix] *)
  suffix : Path -> pystr;
  (** [s.lower()] *)
  str_lower : pystr -> pystr;
  (** [repr(value)], the text of [{value!r}] *)
  py_repr : JsonValue -> pystr;
  (** [json.loads(text)]: the decoded value, or the exception raised: a
      [JSONDecodeError] on malformed text, and also a [RecursionError] on
      deep nesting or a [ValueError] on an integer with too many digits. *)
  json_loads : pystr -> Exc JsonValue;
  (** [Draft7Validator.check_schema(schema)] on a [dict]: [None] when it
      returns, [Some text] when it raises an exception with [str(exc) = text]. *)
  check_schema : list (pystr * JsonValue) -> option pystr;
  (** [Path(__file__).resolve().parents[1]] *)
  script_repo_root : Path
}.

(** The file tree as the script observes it. *)
Record FileSystem `{Runtime} : Type := mkFileSystem {
  (** [path.exists()]: the answer, or the [OSError] that the call lets
      through (a name that is too long, a directory that may not be
      searched). *)
  fs_exists : Path -> Exc bool;
  (** [path.is_dir()], with the same exceptions. *)
  fs_is_dir : Path -> Exc bool;
  (** The text read from [path] opened with [encoding="utf-8"], or the
      exception that opening or reading raises. *)
  fs_read_text : Path -> Exc pystr;
  (** [path.rglob(pattern)] in the order it yields. *)
  fs_rglob : Path -> pystr -> list Path
}.

(* ------------------------------------------------------------------ *)
(** ** The script *)

Section Script.
Context `{RT : Runtime}.

Definition DRAFT07_URIS : list pystr := [
  lit "http://json-schema.org/draft-07/schema#";
  lit "https://json-schema.org/draft-07/schema#";
  lit "http://json-schema.org/draft-07/schema";
  lit "https://json-schema.org/draft-07/schema"
].

Record SchemaSource : Type := mkSchemaSource {
  path : Path;
  label : pystr;
  schema : PyObject
}.

(** The generator yields one source; the decode error of [json.load] is not
    caught here. *)
Definition parse_json_file (fs : FileSystem) (p : Path) : Exc (list SchemaSource) :=
  text <- fs_read_text fs p ;;
  data <- json_loads text ;;
  Return [mkSchemaSource p (path_str p) (PyJson data)].

(** [f"{path}:{start_line} (block {block_index})"] *)
Definition block_label (p : Path) (start_line block_index : nat) : pystr :=
  path_str p ++ lit ":" ++ str_of_nat start_line
    ++ lit " (block " ++ str_of_nat block_index ++ lit ")".

(** [try: value = body except json.JSONDecodeError as exc: value = exc]:
    a decode error becomes the value, any other exception goes on. *)
Definition catch_decode_error (body : Exc JsonValue) : Exc PyObject :=
  match body with
  | Return data => Return (PyJson data)
  | Raise (ExcJSONDecodeError exc) => Return (PyDecodeError exc)
  | Raise e => Raise e
  end.

Definition parse_json_block (p : Path) (start_line block_index : nat)
    (block_text : pystr) : Exc SchemaSource :=
  let label := block_label p start_line block_index in
  value <- catch_decode_error (json_loads block_text) ;;
  Return (mkSchemaSource p label value).

Definition candidate_paths (p : Path) (include_target : pystr) (repo_root : Path)
  : list Path :=
  [ joinpath (parent p) include_target;
    joinpath repo_root include_target;
    joinpath (joinpath repo_root (lit "json-schema")) include_target ].

(** [next((c for c in candidates if c.exists()), None)]: the candidates are
    tested in order up to the first that exists; a test that raises ends the
    search with its exception. *)
Fixpoint first_existing (fs : FileSystem) (candidates : list Path)
  : Exc (option Path) :=
  match candidates with
  | [] => Return None
  | candidate :: others =>
      found <- fs_exists fs candidate ;;
      if found then Return (Some candidate) else first_existing fs others
  end.

Definition parse_snippet_block (fs : FileSystem) (p : Path)
    (start_line block_index : nat) (include_target : pystr) (repo_root : Path)
    (original_block_text : pystr) : Exc SchemaSource :=
  let label := block_label p start_line block_index in
  found <- first_existing fs (candidate_paths p include_target repo_root) ;;
  match found with
  | None =>
      let error :=
        mkJSONDecodeError (lit "snippet include not found: " ++ include_target)
                          original_block_text 0 in
      Return (mkSchemaSource p label (PyDecodeError error))
  | Some include_path =>
      text <- fs_read_text fs include_path ;;
      value <- catch_decode_error (json_loads text) ;;
      match value with
      | PyDecodeError exc => Return (mkSchemaSource p label (PyDecodeError exc))
      | PyJson data =>
          let label :=
            path_str p ++ lit ":" ++ str_of_nat start_line
              ++ lit " (block " ++ str_of_nat block_index
              ++ lit ", include " ++ path_str include_path ++ lit ")" in
          Return (mkSchemaSource p label (PyJson data))
      end
  end.

(** A single or a double quote, the two characters that the classes of
    [SNIPPET_DIRECTIVE_RE] list. *)
Definition is_quote (c : N) : bool := ((c =? 0x22) || (c =? 0x27))%N.

(** The group of [SNIPPET_DIRECTIVE_RE]: the longest run of characters that
    are not quotes, and what follows it. *)
Fixpoint span_not_quote (s : pystr) : pystr * pystr :=
  match s with
  | [] => ([], [])
  | c :: s' =>
      if is_quote c then ([], s)
      else let (run, rest) := span_not_quote s' in (c :: run, rest)
  end.

(** [SNIPPET_DIRECTIVE_RE.match(s)], giving [group(1)].  The pattern is: start
    of text, the marker [--8<--], one or more [\s], a quote, one or more
    characters that are not quotes (the group), a quote, any number of [\s],
    end of text.  No whitespace is a quote and no character of the group is
    one, so each greedy repetition has a single way to match; the final
    [\s*$] accepts exactly a tail of whitespace. *)
Definition SNIPPET_DIRECTIVE_RE_match (s : pystr) : option pystr :=
  if startswith s (lit "--8<--") then
    match skipn 6 s with
    | c :: after_marker =>
        if isspace c then
          match lstrip after_marker with
          | q :: after_quote =>
              if is_quote q then
                match span_not_quote after_quote with
                | (c1 :: target, _ :: tail) =>
                    if forallb isspace tail then Some (c1 :: target) else None
                | _ => None
                end
              else None
          | [] => None
          end
        else None
    | [] => None
    end
  else None.

(** The variables of the line loop of [parse_markdown_json_blocks]. *)
Record ScanState : Type := mkScanState {
  in_block : bool;
  block_start_line : nat;
  block_lines : list pystr;
  blocks : list (nat * pystr)
}.

Definition scan_init : ScanState := mkScanState false 0 [] [].

(** One iteration of [for idx, line in enumerate(lines, start=1)]. *)
Definition scan_line (st : ScanState) (entry : nat * pystr) : ScanState :=
  let (idx, line) := entry in
  let stripped := strip line in
  if negb (in_block st) && startswith (str_lower stripped) (lit "```json") then
    mkScanState true (idx + 1) [] (blocks st)
  else if in_block st && startswith stripped (lit "```") then
    mkScanState false (block_start_line st) []
      (blocks st ++ [(block_start_line st, join [0x0A%N] (block_lines st))])
  else if in_block st then
    mkScanState (in_block st) (block_start_line st) (block_lines st ++ [line])
      (blocks st)
  else st.

(** The test of the line loop that opens a block, on a line read outside
    one. *)
Definition opens_block (line : pystr) : bool :=
  startswith (str_lower (strip line)) (lit "```json").

(** The test of the line loop that closes a block, on a line read inside
    one. *)
Definition closes_block (line : pystr) : bool :=
  startswith (strip line) (lit "```").

(** The line loop, continued from line number [start] in state [st]. *)
Definition scan_from (start : nat) (st : ScanState) (lines : list pystr) : ScanState :=
  fold_left scan_line (enumerate start lines) st.

Definition scan_blocks (lines : list pystr) : list (nat * pystr) :=
  blocks (scan_from 1 scan_init lines).

(** The block loop of [parse_markdown_json_blocks], over
    [enumerate(blocks, start=1)]: what the generator yields until it is
    exhausted, or the exception that ends it. *)
Fixpoint sources_of_blocks (fs : FileSystem) (p : Path) (repo_root : Path)
    (indexed : list (nat * (nat * pystr))) : Exc (list SchemaSource) :=
  match indexed with
  | [] => Return []
  | (block_index, (start_line, block_text)) :: rest =>
      let stripped_block := strip block_text in
      match stripped_block with
      | [] => sources_of_blocks fs p repo_root rest
      | _ :: _ =>
          match SNIPPET_DIRECTIVE_RE_match stripped_block with
          | Some include_target =>
              source <- parse_snippet_block fs p start_line block_index
                          include_target repo_root stripped_block ;;
              others <- sources_of_blocks fs p repo_root rest ;;
              Return (source :: others)
          | None =>
              source <- parse_json_block p start_line block_index block_text ;;
              others <- sources_of_blocks fs p repo_root rest ;;
              Return (source :: others)
          end
      end
  end.

Definition parse_markdown_json_blocks (fs : FileSystem) (p : Path)
  : Exc (list SchemaSource) :=
  text <- fs_read_text fs p ;;
  let lines := splitlines text in
  let blocks := scan_blocks lines in
  let repo_root := script_repo_root in
  sources_of_blocks fs p repo_root (enumerate 1 blocks).

(** [for x in xs: yield from f(x)], collected. *)
Fixpoint yield_from_each {A B : Type} (f : A -> Exc (list B)) (xs : list A)
  : Exc (list B) :=
  match xs with
  | [] => Return []
  | x :: xs' =>
      first <- f x ;;
      others <- yield_from_each f xs' ;;
      Return (first ++ others)
  end.

Definition iter_schema_sources (fs : FileSystem) (paths : list Path)
  : Exc (list SchemaSource) :=
  yield_from_each
    (fun p =>
       is_dir <- fs_is_dir fs p ;;
       if is_dir then
         from_json <- yield_from_each (parse_json_file fs)
                        (fs_rglob fs p (lit "*.json")) ;;
         from_md <- yield_from_each (parse_markdown_json_blocks fs)
                      (fs_rglob fs p (lit "*.md")) ;;
         Return (from_json ++ from_md)
       else if pystr_eqb (str_lower (suffix p)) (lit ".json") then
         parse_json_file fs p
       else if pystr_eqb (str_lower (suffix p)) (lit ".md") then
         parse_markdown_json_blocks fs p
       else Return [])
    paths.

Definition require_draft07 (schema : PyObject) (label : pystr) : Exc (list pystr) :=
  match schema with
  | PyJson (JObj pairs) =>
      let schema_uri := dict_get pairs (lit "$schema") in
      found <- set_contains DRAFT07_URIS schema_uri ;;
      if negb found then
        Return [label ++ lit ": $schema must be Draft 07 (got "
                  ++ py_repr schema_uri ++ lit ")"]
      else Return []
  | _ => Return [label ++ lit ": schema must be a JSON object"]
  end.

Definition validate_schema (schema : PyObject) (label : pystr) : list pystr :=
  match schema with
  | PyDecodeError exc => [label ++ lit ": invalid JSON (" ++ msg exc ++ lit ")"]
  | PyJson (JObj pairs) =>
      match check_schema pairs with
      | Some exc_text => [label ++ lit ": " ++ exc_text]
      | None => []
      end
  | PyJson _ => [label ++ lit ": schema must be a JSON object"]
  end.

Definition resolve_default_paths (fs : FileSystem) : Exc (list Path) :=
  let repo_root := script_repo_root in
  let default_file :=
    joinpath (joinpath (joinpath (joinpath repo_root (lit "docs"))
      (lit "spec-page")) (lit "specification")) (lit "schemas.md") in
  found <- fs_exists fs default_file ;;
  Return (if found then [default_file] else [repo_root]).

(** The parsed command line. *)
Record Args : Type := mkArgs {
  args_paths : list Path;
  allow_missing_schema : bool
}.

(** The loop [for source in sources] of [main], entered with the list
    [failures] built so far. *)
Fixpoint check_sources (allow_missing : bool) (sources : list SchemaSource)
    (failures : list pystr) : Exc (list pystr) :=
  match sources with
  | [] => Return failures
  | source :: rest =>
      failures <- (if negb allow_missing then
                     found <- require_draft07 (schema source) (label source) ;;
                     Return (failures ++ found)
                   else Return failures) ;;
      check_sources allow_missing rest
        (failures ++ validate_schema (schema source) (label source))
  end.

(** The two checks of the loop on one source.  The dialect check can raise
    (see [set_contains]); [dialect_failures] is the list it returns when it
    returns. *)
Definition dialect_check_returns (source : SchemaSource) : Prop :=
  exists found, require_draft07 (schema source) (label source) = Return found.

Definition dialect_failures (source : SchemaSource) : list pystr :=
  match require_draft07 (schema source) (label source) with
  | Return found => found
  | Raise _ => []
  end.

Definition structural_failures (source : SchemaSource) : list pystr :=
  validate_schema (schema source) (label source).

(** [args.paths or resolve_default_paths()] *)
Definition effective_paths (fs : FileSystem) (args : Args) : Exc (list Path) :=
  match args_paths args with
  | [] => resolve_default_paths fs
  | _ :: _ => Return (args_paths args)
  end.

(** [main]: the exit status and the texts printed, one per [print] call. *)
Definition main (fs : FileSystem) (args : Args) : Exc (Z * list pystr) :=
  paths <- effective_paths fs args ;;
  sources <- iter_schema_sources fs paths ;;
  match sources with
  | [] => Return (1%Z, [lit "No JSON schemas found."])
  | _ :: _ =>
      failures <- check_sources (allow_missing_schema args) sources [] ;;
      match failures with
      | _ :: _ =>
          Return (1%Z,
                  (lit "Schema verification failed:" ++ [0x0A%N])
                    :: map (fun failure => lit "- " ++ failure) failures)
      | [] =>
          Return (0%Z,
                  [lit "OK: " ++ str_of_nat (List.length sources)
                     ++ lit " schema(s) verified as Draft 07"])
      end
  end.

(** What the line loop keeps true of its variables before it reads line
    [next_line]: the start lines of the blocks found increase and lie between
    2 and the lines read; inside a block, its start line is at most
    [next_line] and above those of the blocks found. *)
Definition scan_invariant (next_line : nat) (st : ScanState) : Prop :=
  StronglySorted lt (map fst (blocks st))
  /\ Forall (fun block => 2 <= fst block < next_line) (blocks st)
  /\ (in_block st = true ->
      2 <= block_start_line st <= next_line
      /\ Forall (fun block => fst block < block_start_line st) (blocks st)).

(** 1 inside a block, 0 outside. *)
Definition open_blocks (st : ScanState) : nat := if in_block st then 1 else 0.

(** A block that the block loop does not skip: its stripped text is not
    empty. *)
Definition is_blank (text : pystr) : bool :=
  match strip text with
  | [] => true
  | _ :: _ => false
  end.

(** A source that passes both checks: an object whose [$schema] entry is one
    of the recognised identifiers and on which [check_schema] returns. *)
Definition passes_both_checks (source : SchemaSource) : Prop :=
  exists pairs uri,
    schema source = PyJson (JObj pairs)
    /\ dict_get pairs (lit "$schema") = JStr uri
    /\ In uri DRAFT07_URIS
    /\ check_schema pairs = None.

(** A source that passes the structural check. *)
Definition passes_structural_check (source : SchemaSource) : Prop :=
  exists pairs, schema source = PyJson (JObj pairs) /\ check_schema pairs = None.

(** The call returned the answer [expected]. *)
Definition answers (outcome : Exc bool) (expected : bool) : bool :=
  match outcome with
  | Return answer => Bool.eqb answer expected
  | Raise _ => false
  end.


(** [for x in xs: yield f(x)], collected: the results in order, or the first
    exception. *)
Fixpoint collect {A B : Type} (f : A -> Exc B) (xs : list A) : Exc (list B) :=
  match xs with
  | [] => Return []
  | x :: xs' =>
      first <- f x ;;
      others <- collect f xs' ;;
      Return (first :: others)
  end.

(** A path that [iter_schema_sources] passes over: [is_dir()] answers no, and a
    the suffix is neither [.json] nor [.md] once lowered. *)
Definition is_ignored (fs : FileSystem) (p : Path) : bool :=
  answers (fs_is_dir fs p) false
  && negb (pystr_eqb (str_lower (suffix p)) (lit ".json"))
  && negb (pystr_eqb (str_lower (suffix p)) (lit ".md")).


(** A path given on the command line that names a [.json] file. *)
Definition is_json_file (fs : FileSystem) (p : Path) : bool :=
  answers (fs_is_dir fs p) false
  && pystr_eqb (str_lower (suffix p)) (lit ".json").


(** [raise SystemExit(main())]: the status of the process is what [main]
    returns; on an exception that nothing catches the interpreter prints the
    traceback and the status is 1. *)
Definition exit_status (outcome : Exc (Z * list pystr)) : Z :=
  match outcome with
  | Return (status, _) => status
  | Raise _ => 1%Z
  end.

End Script.

(* ------------------------------------------------------------------ *)
(** ** A concrete runtime

    The script is run below on a small file tree.  That needs one
    implementation of the libraries: relative POSIX paths, ASCII case
    folding, and a decoder for the part of JSON on which every version of
    CPython's [json] package answers alike. *)

Module Example.

(** A relative path as its components; the empty list is the path [.]. *)
Definition RelPath : Type := list pystr.

Definition rel_str (p : RelPath) : pystr :=
  match p with
  | [] => lit "."
  | _ :: _ => join (lit "/") p
  end.

(** [name[i:]] for the last dot of [name] at [0 < i < len(name) - 1], else
    the empty text: [seen] is the suffix found so far. *)
Fixpoint suffix_from (seen : pystr) (name : pystr) : pystr :=
  match name with
  | [] => seen
  | c :: name' =>
      if (c =? 0x2E)%N then
        match name' with
        | [] => []
        | _ :: _ => suffix_from (c :: name') name'
        end
      else suffix_from seen name'
  end.

Definition rel_suffix (p : RelPath) : pystr :=
  match last p [] with
  | [] => []
  | _ :: name' => suffix_from [] name'
  end.

(** [s.lower()] on ASCII text. *)
Definition ascii_lower (s : pystr) : pystr :=
  map (fun c => if ((0x41 <=? c) && (c <=? 0x5A))%N then (c + 32)%N else c) s.

(** [repr] of [None], a boolean, an integer, and a string of printable ASCII
    without quote or backslash.  The script takes the [repr] of no list and
    no dict (the membership test raises before), and the decoder below
    yields no float. *)
Definition repr_plain (v : JsonValue) : pystr :=
  match v with
  | JNull => lit "None"
  | JBool true => lit "True"
  | JBool false => lit "False"
  | JInt n => lit (NilZero.string_of_int (Z.to_int n))
  | JStr s => lit "'" ++ s ++ lit "'"
  | JFloat numeral => numeral
  | JArr _ => lit "[...]"
  | JObj _ => lit "{...}"
  end.

(** *** The decoder *)

Inductive Scan (A : Type) : Type :=
| Got (a : A) (rest : pystr) (idx : nat)
| Bad (message : pystr) (position : nat)
| Outside.
Arguments Got {A} a rest idx.
Arguments Bad {A} message position.
Arguments Outside {A}.

Definition is_json_ws (c : N) : bool :=
  ((c =? 0x20) || (c =? 0x09) || (c =? 0x0A) || (c =? 0x0D))%N.

Definition is_digit (c : N) : bool := ((0x30 <=? c) && (c <=? 0x39))%N.

(** [_w(s, idx).end()]: [rest] is the text from position [idx] on. *)
Fixpoint skip_ws (rest : pystr) (idx : nat) : pystr * nat :=
  match rest with
  | c :: rest' => if is_json_ws c then skip_ws rest' (S idx) else (rest, idx)
  | [] => ([], idx)
  end.

(** A string literal after its opening quote at [start]. *)
Fixpoint scanstring (acc rest : pystr) (idx start : nat) : Scan pystr :=
  match rest with
  | [] => Bad (lit "Unterminated string starting at") start
  | c :: rest' =>
      if (c =? 0x22)%N then Got (rev acc) rest' (S idx)
      else if ((c =? 0x5C) || (c <? 0x20))%N then Outside
      else scanstring (c :: acc) rest' (S idx) start
  end.

(** The digits at the head of [rest], as a number, with what follows. *)
Fixpoint scan_digits (acc : Z) (rest : pystr) (idx : nat) : Z * pystr * nat :=
  match rest with
  | c :: rest' =>
      if is_digit c then scan_digits (10 * acc + Z.of_N (c - 0x30)) rest' (S idx)
      else (acc, rest, idx)
  | [] => (acc, [], idx)
  end.

(** The integer part of [NUMBER_RE]: a zero, or digits that start with a
    non-zero one.  A fraction or an exponent after it is outside. *)
Definition scan_integer (negative : bool) (rest : pystr) (idx : nat) : Scan JsonValue :=
  let signed (n : Z) := if negative then (- n)%Z else n in
  let finish (n : Z) (rest' : pystr) (idx' : nat) : Scan JsonValue :=
    match rest' with
    | c :: _ =>
        if ((c =? 0x2E) || (c =? 0x65) || (c =? 0x45))%N then Outside
        else Got (JInt (signed n)) rest' idx'
    | [] => Got (JInt (signed n)) rest' idx'
    end in
  match rest with
  | c :: rest' =>
      if (c =? 0x30)%N then finish 0%Z rest' (S idx)
      else if is_digit c then
        let '(n, rest'', idx'') := scan_digits 0 rest idx in finish n rest'' idx''
      else Bad (lit "Expecting value") (if negative then idx - 1 else idx)
  | [] => Bad (lit "Expecting value") (if negative then idx - 1 else idx)
  end.

(** [scan_once], [JSONObject] and [JSONArray].  [fuel] bounds the nesting and
    the number of members read. *)
Fixpoint scan_once (fuel : nat) (rest : pystr) (idx : nat) : Scan JsonValue :=
  match fuel with
  | O => Outside
  | S fuel' =>
      match rest with
      | [] => Bad (lit "Expecting value") idx
      | c :: rest' =>
          if (c =? 0x22)%N then
            match scanstring [] rest' (S idx) idx with
            | Got s rest'' idx'' => Got (JStr s) rest'' idx''
            | Bad m p => Bad m p
            | Outside => Outside
            end
          else if (c =? 0x7B)%N then
            let (after_ws, idx1) := skip_ws rest' (S idx) in
            match after_ws with
            | c1 :: after_brace =>
                if (c1 =? 0x7D)%N then Got (JObj []) after_brace (S idx1)
                else if (c1 =? 0x22)%N then
                  object_members fuel' [] after_brace (S idx1) idx1
                else Bad (lit "Expecting property name enclosed in double quotes") idx1
            | [] => Bad (lit "Expecting property name enclosed in double quotes") idx1
            end
          else if (c =? 0x5B)%N then
            let (after_ws, idx1) := skip_ws rest' (S idx) in
            match after_ws with
            | c1 :: after_bracket =>
                if (c1 =? 0x5D)%N then Got (JArr []) after_bracket (S idx1)
                else array_items fuel' [] after_ws idx1
            | [] => Bad (lit "Expecting value") idx1
            end
          else if startswith rest (lit "null") then Got JNull (skipn 4 rest) (idx + 4)
          else if startswith rest (lit "true") then Got (JBool true) (skipn 4 rest) (idx + 4)
          else if startswith rest (lit "false") then Got (JBool false) (skipn 5 rest) (idx + 5)
          else if startswith rest (lit "NaN") || startswith rest (lit "Infinity")
                  || startswith rest (lit "-Infinity") then Outside
          else if (c =? 0x2D)%N then scan_integer true rest' (S idx)
          else scan_integer false rest idx
      end
  end

(** After the opening quote of a key, at position [idx]; [key_start] is the
    position of that quote. *)
with object_members (fuel : nat) (pairs : list (pystr * JsonValue))
    (rest : pystr) (idx key_start : nat) : Scan JsonValue :=
  match fuel with
  | O => Outside
  | S fuel' =>
      match scanstring [] rest idx key_start with
      | Bad m p => Bad m p
      | Outside => Outside
      | Got key rest1 idx1 =>
          let (rest2, idx2) := skip_ws rest1 idx1 in
          match rest2 with
          | c :: rest3 =>
              if (c =? 0x3A)%N then
                let (rest4, idx4) := skip_ws rest3 (S idx2) in
                match scan_once fuel' rest4 idx4 with
                | Bad m p => Bad m p
                | Outside => Outside
                | Got value rest5 idx5 =>
                    let pairs' := dict_set pairs key value in
                    let (rest6, idx6) := skip_ws rest5 idx5 in
                    match rest6 with
                    | c6 :: rest7 =>
                        if (c6 =? 0x7D)%N then Got (JObj pairs') rest7 (S idx6)
                        else if (c6 =? 0x2C)%N then
                          let (rest8, idx8) := skip_ws rest7 (S idx6) in
                          match rest8 with
                          | c8 :: rest9 =>
                              if (c8 =? 0x22)%N then
                                object_members fuel' pairs' rest9 (S idx8) idx8
                              else if (c8 =? 0x7D)%N then Outside
                              else Bad (lit "Expecting property name enclosed in double quotes") idx8
                          | [] => Bad (lit "Expecting property name enclosed in double quotes") idx8
                          end
                        else Bad (lit "Expecting ',' delimiter") idx6
                    | [] => Bad (lit "Expecting ',' delimiter") idx6
                    end
                end
              else Bad (lit "Expecting ':' delimiter") idx2
          | [] => Bad (lit "Expecting ':' delimiter") idx2
          end
      end
  end

(** At the first character of an item. *)
with array_items (fuel : nat) (items : list JsonValue) (rest : pystr) (idx : nat)
    : Scan JsonValue :=
  match fuel with
  | O => Outside
  | S fuel' =>
      match scan_once fuel' rest idx with
      | Bad m p => Bad m p
      | Outside => Outside
      | Got value rest1 idx1 =>
          let (rest2, idx2) := skip_ws rest1 idx1 in
          match rest2 with
          | c :: rest3 =>
              if (c =? 0x5D)%N then Got (JArr (items ++ [value])) rest3 (S idx2)
              else if (c =? 0x2C)%N then
                let (rest4, idx4) := skip_ws rest3 (S idx2) in
                match rest4 with
                | c4 :: _ =>
                    if (c4 =? 0x5D)%N then Outside
                    else array_items fuel' (items ++ [value]) rest4 idx4
                | [] => Bad (lit "Expecting value") idx4
                end
              else Bad (lit "Expecting ',' delimiter") idx2
          | [] => Bad (lit "Expecting ',' delimiter") idx2
          end
      end
  end.

(** [json.loads(text)] on texts of objects, arrays, strings without
    backslash or control character, integers and the three literals.  A text
    with an escape, a fraction or an exponent, [NaN], an infinity or a comma
    before a closing bracket is answered by an error that says so: the
    package decodes the first four, and its message for the last changed
    between versions. *)
Definition loads (text : pystr) : JsonValue + JSONDecodeError :=
  let outside := inr (mkJSONDecodeError (lit "outside the decoder of the examples") text 0) in
  match text with
  | 0xFEFF%N :: _ =>
      inr (mkJSONDecodeError (lit "Unexpected UTF-8 BOM (decode using utf-8-sig)") text 0)
  | _ =>
      let (rest, idx) := skip_ws text 0 in
      match scan_once (2 * List.length text + 2) rest idx with
      | Outside => outside
      | Bad m p => inr (mkJSONDecodeError m text p)
      | Got value rest1 idx1 =>
          match skip_ws rest1 idx1 with
          | ([], _) => inl value
          | (_ :: _, idx2) => inr (mkJSONDecodeError (lit "Extra data") text idx2)
          end
      end
  end.

(** Every schema of the example tree that reaches the validator is a valid
    Draft 07 schema, on which [check_schema] returns. *)
Definition check_schema_returns (pairs : list (pystr * JsonValue)) : option pystr :=
  None.

#[export] Instance runtime : Runtime := {
  Path := RelPath;
  path_str := rel_str;
  parent := removelast (A := pystr);
  joinpath := fun p segment => p ++ [segment];
  suffix := rel_suffix;
  str_lower := ascii_lower;
  py_repr := repr_plain;
  json_loads := fun text =>
    match loads text with
    | inl value => Return value
    | inr exc => Raise (ExcJSONDecodeError exc)
    end;
  check_schema := check_schema_returns;
  script_repo_root := []
}.

(** *** A file tree *)

Fixpoint is_prefix (a b : RelPath) : bool :=
  match a, b with
  | [], _ => true
  | x :: a', y :: b' => pystr_eqb x y && is_prefix a' b'
  | _ :: _, [] => false
  end.

Definition rel_eqb (a b : RelPath) : bool := is_prefix a b && is_prefix b a.

(** [name.endswith(ending)] *)
Definition endswith (name ending : pystr) : bool :=
  startswith (rev name) (rev ending).

(** A path with a component of more than 255 characters: [stat] fails with
    [ENAMETOOLONG], which [exists()] and [is_dir()] let through. *)
Definition name_too_long (p : RelPath) : bool :=
  existsb (fun name => 255 <? List.length name) p.

(** The file system of a tree given by its regular files and their texts.
    A directory is a strict prefix of a file; [rglob] with a pattern [*.ext]
    yields the files below the directory whose name ends in [.ext], in the
    order of the tree; reading what is not a file raises [OSError]. *)
Definition file_system (files : list (RelPath * pystr)) : FileSystem :=
  let is_file p := existsb (fun f => rel_eqb (fst f) p) files in
  let is_dir p := existsb (fun f => is_prefix p (fst f) && negb (rel_eqb (fst f) p)) files in
  let stat (answer : bool) (p : RelPath) : Exc bool :=
    if name_too_long p then Raise (ExcOSError (lit "[Errno 36] File name too long"))
    else Return answer in
  {| fs_exists := fun p => stat (is_file p || is_dir p) p;
     fs_is_dir := fun p => stat (is_dir p) p;
     fs_read_text := fun p =>
       match find (fun f => rel_eqb (fst f) p) files with
       | Some f => Return (snd f)
       | None => Raise (ExcOSError (lit "No such file or directory"))
       end;
     fs_rglob := fun p pattern =>
       map fst (filter (fun f => is_prefix p (fst f) && negb (rel_eqb (fst f) p)
                                   && endswith (last (fst f) []) (skipn 1 pattern))
                       files) |}.

Definition dq : pystr := [0x22%N].
Definition nl : pystr := [0x0A%N].

(** [{"$schema": "http://json-schema.org/draft-07/schema#"}] *)
Definition draft07_text : pystr :=
  lit "{" ++ dq ++ lit "$schema" ++ dq ++ lit ": " ++ dq
    ++ lit "http://json-schema.org/draft-07/schema#" ++ dq ++ lit "}".

(** A directory with a schema file and a file cut after its first brace. *)
Definition tree_with_malformed_file : list (RelPath * pystr) :=
  [ ([lit "schemas"; lit "broken.json"], lit "{");
    ([lit "schemas"; lit "point.json"], draft07_text) ].

(** The same two texts as blocks of one Markdown file. *)
Definition tree_with_malformed_block : list (RelPath * pystr) :=
  [ ([lit "docs"; lit "schemas.md"],
     lit "```json" ++ nl ++ lit "{" ++ nl ++ lit "```" ++ nl
       ++ lit "```json" ++ nl ++ draft07_text ++ nl ++ lit "```" ++ nl) ].

(** [{"$schema": []}] *)
Definition tree_with_list_dialect : list (RelPath * pystr) :=
  [ ([lit "schemas"; lit "list.json"],
     lit "{" ++ dq ++ lit "$schema" ++ dq ++ lit ": []}");
    ([lit "schemas"; lit "point.json"], draft07_text) ].

(** A page with an inline schema, an include directive, a blank block and a
    block left open, next to the included file. *)
Definition tree_with_page : list (RelPath * pystr) :=
  [ ([lit "docs"; lit "page.md"],
     lit "# Schemas" ++ nl
       ++ lit "  ```JSON title" ++ nl ++ lit "{" ++ nl ++ lit "}" ++ nl ++ lit "```text" ++ nl
       ++ lit "```json" ++ nl ++ lit "--8<-- 'point.json'" ++ nl ++ lit "```" ++ nl
       ++ lit "```json" ++ nl ++ lit "   " ++ nl ++ lit "```" ++ nl
       ++ lit "```json" ++ nl ++ lit "--8<-- 'absent.json'" ++ nl ++ lit "```" ++ nl
       ++ lit "```json" ++ nl ++ lit "{" ++ nl);
    ([lit "json-schema"; lit "point.json"], draft07_text) ].

Definition page : Path := [lit "docs"; lit "page.md"].
Definition schemas_dir : Path := [lit "schemas"].
Definition docs_dir : Path := [lit "docs"].
Definition broken_file : Path := [lit "schemas"; lit "broken.json"].

(** The sources of the page, as [iter_schema_sources] collects them. *)
Definition page_sources : list SchemaSource :=
  Eval vm_compute in
    match iter_schema_sources (file_system tree_with_page) [page] with
    | Return sources => sources
    | Raise _ => []
    end.

(** The decode error of the text [{]. *)
Definition open_brace_error : JSONDecodeError :=
  mkJSONDecodeError (lit "Expecting property name enclosed in double quotes") (lit "{") 1.

(** The error that stands for the include that is not found, and the
    source that carries it: the last source of the page. *)
Definition missing_include_error : JSONDecodeError :=
  mkJSONDecodeError (lit "snippet include not found: absent.json")
    (lit "--8<-- 'absent.json'") 0.

Definition missing_include_source : SchemaSource :=
  mkSchemaSource page (lit "docs/page.md:13 (block 4)")
    (PyDecodeError missing_include_error).

(** The two sources of the page before it. *)
Definition resolved_sources : list SchemaSource := firstn 2 page_sources.

(** A source whose value is the empty JSON array. *)
Definition array_source : SchemaSource :=
  mkSchemaSource schemas_dir (lit "schemas/array.json") (PyJson (JArr [])).

(** What the run on the page reports. *)
Definition page_failures : list pystr :=
  [ lit "docs/page.md:3 (block 1): $schema must be Draft 07 (got None)";
    lit "docs/page.md:13 (block 4): schema must be a JSON object";
    lit "docs/page.md:13 (block 4): invalid JSON (snippet include not found: absent.json)" ].

(** The text of the page. *)
Definition page_text : pystr :=
  Eval vm_compute in
    match fs_read_text (file_system tree_with_page) page with
    | Return text => text
    | Raise _ => []
    end.

(** A file that is neither JSON nor Markdown, absent from every tree. *)
Definition readme : Path := [lit "README.txt"].

(** The schema file of the page tree and the source it gives. *)
Definition point_file : Path := [lit "json-schema"; lit "point.json"].

Definition point_pairs : list (pystr * JsonValue) :=
  [(lit "$schema", JStr (lit "http://json-schema.org/draft-07/schema#"))].

Definition point_source : SchemaSource :=
  mkSchemaSource point_file (lit "json-schema/point.json") (PyJson (JObj point_pairs)).

(** A page whose only fence is not a json fence. *)
Definition notes : Path := [lit "docs"; lit "notes.md"].

Definition notes_text : pystr :=
  lit "# Notes" ++ nl ++ lit "```text" ++ nl ++ lit "{}" ++ nl ++ lit "```" ++ nl.

Definition tree_with_notes : list (RelPath * pystr) := [ (notes, notes_text) ].

Definition schemas_page : Path := [lit "docs"; lit "schemas.md"].

(** The two blocks of [tree_with_malformed_block], with their indices. *)
Definition malformed_and_valid_blocks : list (nat * (nat * pystr)) :=
  [ (1, (2, lit "{")); (2, (5, draft07_text)) ].

(** An include target of 256 characters. *)
Definition long_target : pystr := repeat 0x61%N 256.

(** A source whose value is the object [{"$schema": []}]. *)
Definition list_source : SchemaSource :=
  mkSchemaSource schemas_dir (lit "schemas/list.json")
    (PyJson (JObj [(lit "$schema", JArr [])])).



End Example.
(* ------------------------------------------------------------------ *)
(** ** Lemmas on text and on the line loop *)

Lemma enumerate_app {A : Type} (xs ys : list A) (start : nat) :
  enumerate start (xs ++ ys) = enumerate start xs ++ enumerate (start + List.length xs) ys.
Proof.
  revert start. induction xs as [|x xs IH]; intros start; simpl.
  - now rewrite Nat.add_0_r.
  - rewrite IH. simpl. now rewrite Nat.add_succ_r.
Qed.

Lemma lstrip_all_space (s : pystr) :
  lstrip s = [] <-> Forall (fun c => isspace c = true) s.
Proof.
  induction s as [|c s IH]; simpl.
  - split; auto.
  - destruct (isspace c) eqn:E.
    + rewrite IH. split; intros H.
      * now constructor.
      * now inversion H.
    + split; intros H; [discriminate | inversion H; congruence].
Qed.

Lemma lstrip_suffix (s : pystr) : exists dropped, s = dropped ++ lstrip s.
Proof.
  induction s as [|c s [d IH]]; simpl.
  - now exists [].
  - destruct (isspace c).
    + exists (c :: d). simpl. now rewrite <- IH.
    + now exists [].
Qed.

(** [strip] leaves nothing exactly on the texts made of whitespace only,
    the empty text among them. *)
Lemma strip_empty_iff (s : pystr) :
  strip s = [] <-> Forall (fun c => isspace c = true) s.
Proof.
  unfold strip, rstrip. split.
  - intros H.
    assert (Hr : lstrip (rev (lstrip s)) = []).
    { rewrite <- (rev_involutive (lstrip (rev (lstrip s)))). rewrite H. reflexivity. }
    apply lstrip_all_space in Hr.
    apply Forall_rev in Hr. rewrite rev_involutive in Hr.
    destruct (lstrip s) as [|c t] eqn:E.
    + now apply lstrip_all_space.
    + exfalso. inversion Hr as [|? ? Hc _]; subst.
      destruct s as [|c0 s0]; simpl in E; [discriminate|].
      clear - E Hc. revert c0 E. induction s0 as [|x s0 IH]; intros c0 E; simpl in E.
      * destruct (isspace c0) eqn:E0; [discriminate|]. inversion E; subst. congruence.
      * destruct (isspace c0) eqn:E0.
        -- now apply (IH x).
        -- inversion E; subst. congruence.
  - intros H. apply lstrip_all_space in H. rewrite H. reflexivity.
Qed.

Section LineLoop.
Context `{RT : Runtime}.

Lemma scan_line_open (st : ScanState) (idx : nat) (line : pystr) :
  in_block st = false -> opens_block line = true ->
  scan_line st (idx, line) = mkScanState true (idx + 1) [] (blocks st).
Proof.
  intros Hout Hopen. unfold scan_line, opens_block in *.
  now rewrite Hout, Hopen.
Qed.

Lemma scan_line_close (st : ScanState) (idx : nat) (line : pystr) :
  in_block st = true -> closes_block line = true ->
  scan_line st (idx, line) =
    mkScanState false (block_start_line st) []
      (blocks st ++ [(block_start_line st, join [0x0A%N] (block_lines st))]).
Proof.
  intros Hin Hclose. unfold scan_line, closes_block in *.
  now rewrite Hin, Hclose.
Qed.

Lemma scan_line_inside (st : ScanState) (idx : nat) (line : pystr) :
  in_block st = true -> closes_block line = false ->
  scan_line st (idx, line) =
    mkScanState true (block_start_line st) (block_lines st ++ [line]) (blocks st).
Proof.
  intros Hin Hclose. unfold scan_line, closes_block in *.
  now rewrite Hin, Hclose.
Qed.

Lemma scan_line_outside (st : ScanState) (idx : nat) (line : pystr) :
  in_block st = false -> opens_block line = false ->
  scan_line st (idx, line) = st.
Proof.
  intros Hout Hopen. unfold scan_line, opens_block in *.
  now rewrite Hout, Hopen.
Qed.

Lemma scan_from_app (start : nat) (st : ScanState) (xs ys : list pystr) :
  scan_from start st (xs ++ ys) =
  scan_from (start + List.length xs) (scan_from start st xs) ys.
Proof.
  unfold scan_from. now rewrite enumerate_app, fold_left_app.
Qed.

Lemma scan_from_cons (start : nat) (st : ScanState) (x : pystr) (xs : list pystr) :
  scan_from start st (x :: xs) = scan_from (S start) (scan_line st (start, x)) xs.
Proof. reflexivity. Qed.

(** Inside a block, lines that do not close it pile up in the buffer. *)
Lemma scan_from_body (body : list pystr) :
  forall (start : nat) (st : ScanState),
  in_block st = true ->
  Forall (fun line => closes_block line = false) body ->
  scan_from start st body =
    mkScanState true (block_start_line st) (block_lines st ++ body) (blocks st).
Proof.
  induction body as [|line body IH]; intros start st Hin Hbody.
  - unfold scan_from. simpl. rewrite app_nil_r. destruct st; simpl in *. now subst.
  - inversion Hbody as [|? ? Hline Hrest]; subst.
    rewrite scan_from_cons, (scan_line_inside _ _ _ Hin Hline).
    rewrite IH by auto. simpl. now rewrite <- app_assoc.
Qed.

(** The loop only ever appends to [blocks]. *)
Lemma scan_from_blocks_grow (lines : list pystr) :
  forall (start : nat) (st : ScanState),
  exists more, blocks (scan_from start st lines) = blocks st ++ more.
Proof.
  induction lines as [|line lines IH]; intros start st.
  - exists []. unfold scan_from. simpl. now rewrite app_nil_r.
  - rewrite scan_from_cons.
    destruct (IH (S start) (scan_line st (start, line))) as [more Hmore].
    rewrite Hmore. unfold scan_line.
    destruct (negb (in_block st) && _); simpl; [now exists more|].
    destruct (in_block st && _); simpl.
    + eexists. now rewrite <- app_assoc.
    + destruct (in_block st); simpl; now exists more.
Qed.

End LineLoop.


(* ------------------------------------------------------------------ *)
(** ** Lemmas on the two checks and the loop of [main] *)

Lemma pystr_eqb_eq (a b : pystr) : pystr_eqb a b = true <-> a = b.
Proof.
  revert b. induction a as [|x a IH]; intros [|y b]; simpl;
    try (split; [discriminate | discriminate]); try tauto.
  rewrite andb_true_iff, N.eqb_eq, IH. split.
  - intros [-> ->]. reflexivity.
  - intros H. inversion H. auto.
Qed.

Section Checks.
Context `{RT : Runtime}.

(** The set of recognised dialect identifiers holds exactly four texts. *)
Lemma draft07_membership (s : pystr) :
  existsb (pystr_eqb s) DRAFT07_URIS = true <->
  s = lit "http://json-schema.org/draft-07/schema#"
  \/ s = lit "https://json-schema.org/draft-07/schema#"
  \/ s = lit "http://json-schema.org/draft-07/schema"
  \/ s = lit "https://json-schema.org/draft-07/schema".
Proof.
  unfold DRAFT07_URIS. cbn [existsb].
  rewrite !orb_true_iff, !pystr_eqb_eq. intuition discriminate.
Qed.

(** A value that is not a [dict]: one failure, and the pairs of no object
    are looked at. *)
Lemma require_draft07_not_object (schema : PyObject) (label : pystr) :
  (forall pairs, schema <> PyJson (JObj pairs)) ->
  require_draft07 schema label = Return [label ++ lit ": schema must be a JSON object"].
Proof.
  intros Hno. destruct schema as [[]|]; try reflexivity.
  exfalso. now apply (Hno pairs).
Qed.

(** A [dict] whose [$schema] entry is hashable: one failure naming the
    entry unless it is one of the four identifiers. *)
Lemma require_draft07_object (pairs : list (pystr * JsonValue)) (label : pystr) :
  let schema_uri := dict_get pairs (lit "$schema") in
  (forall items, schema_uri <> JArr items) ->
  (forall members, schema_uri <> JObj members) ->
  require_draft07 (PyJson (JObj pairs)) label =
    Return (match schema_uri with
            | JStr s =>
                if existsb (pystr_eqb s) DRAFT07_URIS then []
                else [label ++ lit ": $schema must be Draft 07 (got "
                        ++ py_repr schema_uri ++ lit ")"]
            | _ => [label ++ lit ": $schema must be Draft 07 (got "
                      ++ py_repr schema_uri ++ lit ")"]
            end).
Proof.
  intros schema_uri Hlist Hdict. subst schema_uri. unfold require_draft07.
  destruct (dict_get pairs (lit "$schema")) as [| | | |s|items|members];
    cbn [set_contains bind negb]; try reflexivity.
  - now destruct (existsb (pystr_eqb s) DRAFT07_URIS).
  - exfalso. now apply (Hlist items).
  - exfalso. now apply (Hdict members).
Qed.

(** [parse_json_file] lets the decode error of its file through. *)
Lemma parse_json_file_decode_error
    (fs : FileSystem) (p : Path) (text : pystr) (exc : JSONDecodeError) :
  fs_read_text fs p = Return text ->
  json_loads text = Raise (ExcJSONDecodeError exc) ->
  parse_json_file fs p = Raise (ExcJSONDecodeError exc).
Proof.
  intros Hread Hdecode. unfold parse_json_file. now rewrite Hread; simpl; rewrite Hdecode.
Qed.

(** [parse_json_block] keeps the decode error of its block in the source. *)
Lemma parse_json_block_decode_error
    (p : Path) (start_line block_index : nat) (text : pystr) (exc : JSONDecodeError) :
  json_loads text = Raise (ExcJSONDecodeError exc) ->
  parse_json_block p start_line block_index text =
    Return (mkSchemaSource p (block_label p start_line block_index) (PyDecodeError exc)).
Proof.
  intros Hdecode. unfold parse_json_block. now rewrite Hdecode.
Qed.

Lemma dialect_failures_returned (source : SchemaSource) :
  dialect_check_returns source ->
  require_draft07 (schema source) (label source) = Return (dialect_failures source).
Proof.
  intros [found Hfound]. unfold dialect_failures. now rewrite Hfound.
Qed.

(** The loop entered with [failures] appends to it what it appends to the
    empty list. *)
Lemma check_sources_acc (allow_missing : bool) (sources : list SchemaSource) :
  forall failures,
  check_sources allow_missing sources failures =
  (found <- check_sources allow_missing sources [] ;; Return (failures ++ found)).
Proof.
  induction sources as [|source rest IH]; intros failures; simpl.
  - now rewrite app_nil_r.
  - destruct allow_missing; simpl.
    + rewrite IH. rewrite (IH (validate_schema _ _)).
      destruct (check_sources true rest []); simpl; [|reflexivity].
      now rewrite app_assoc.
    + destruct (require_draft07 (schema source) (label source)) as [found|e];
        simpl; [|reflexivity].
      rewrite IH. rewrite (IH (found ++ validate_schema _ _)).
      destruct (check_sources false rest []); simpl; [|reflexivity].
      now rewrite !app_assoc.
Qed.

(** With the dialect requirement suppressed the loop always returns, with
    the structural failures of each source in turn. *)
Lemma check_sources_allow (sources : list SchemaSource) :
  check_sources true sources [] = Return (flat_map structural_failures sources).
Proof.
  induction sources as [|source rest IH]; simpl; [reflexivity|].
  rewrite check_sources_acc, IH. reflexivity.
Qed.

(** With the requirement in force the loop returns when every dialect check
    does, with the dialect failures of a source followed by its structural
    failures, source after source. *)
Lemma check_sources_require (sources : list SchemaSource) :
  Forall dialect_check_returns sources ->
  check_sources false sources [] =
    Return (flat_map (fun source => dialect_failures source ++ structural_failures source)
                     sources).
Proof.
  induction 1 as [|source rest Hsource _ IH]; simpl; [reflexivity|].
  rewrite (dialect_failures_returned _ Hsource). simpl.
  rewrite check_sources_acc, IH. reflexivity.
Qed.

(** The loop returns a failure list exactly when every dialect check
    returns, and the list is then the one above. *)
Lemma check_sources_require_iff (sources : list SchemaSource) :
  forall failures,
  check_sources false sources [] = Return failures <->
  Forall dialect_check_returns sources
  /\ failures =
       flat_map (fun source => dialect_failures source ++ structural_failures source)
                sources.
Proof.
  intros failures. split.
  - revert failures. induction sources as [|source rest IH]; intros failures; simpl.
    + intros H. inversion H. split; [constructor | reflexivity].
    + destruct (require_draft07 (schema source) (label source)) as [found|e] eqn:D;
        simpl; [|discriminate].
      rewrite check_sources_acc.
      destruct (check_sources false rest []) as [later|e] eqn:E; simpl; [|discriminate].
      intros H. inversion H; subst.
      destruct (IH later eq_refl) as [Hrest ->].
      split.
      * constructor; [now exists found | exact Hrest].
      * cbn [flat_map]. f_equal. unfold dialect_failures, structural_failures.
        now rewrite D.
  - intros [Hall ->]. now apply check_sources_require.
Qed.

(** The loop over a list is the loop over its first part, then over the
    rest with the failures found so far. *)
Lemma check_sources_app (allow_missing : bool) (before after : list SchemaSource) :
  forall failures,
  check_sources allow_missing (before ++ after) failures =
  (found <- check_sources allow_missing before failures ;;
   check_sources allow_missing after found).
Proof.
  induction before as [|source rest IH]; intros failures; simpl; [reflexivity|].
  destruct allow_missing; simpl.
  - apply IH.
  - destruct (require_draft07 (schema source) (label source)); simpl; [apply IH | reflexivity].
Qed.

(** A dialect check that raises ends the loop. *)
Lemma check_sources_raise (before after : list SchemaSource) (source : SchemaSource)
    (e : PyException) :
  Forall dialect_check_returns before ->
  require_draft07 (schema source) (label source) = Raise e ->
  check_sources false (before ++ source :: after) [] = Raise e.
Proof.
  induction 1 as [|first rest Hfirst _ IH]; intros Hraise; simpl.
  - now rewrite Hraise.
  - rewrite (dialect_failures_returned _ Hfirst). simpl.
    rewrite check_sources_acc, IH by assumption. reflexivity.
Qed.


End Checks.
(* ------------------------------------------------------------------ *)
(** ** The specified properties *)

Section Properties.
Context `{RT : Runtime}.

(** C3.  The block extractor is a two-state scanner.  Take a Markdown file
    whose lines [pre] leave the scanner outside a block.  A following line
    whose trimmed, case-folded text starts with the json fence opens a block
    whose recorded start line is the line after it; lines that do not start
    with a fence once trimmed are collected; the first line whose trimmed text
    starts with three backticks, whatever follows them, closes the block with
    the collected lines joined by a newline, and the scanner is outside
    again.  The block stays in the result whatever lines [rest] follow.  When
    the file ends before such a closing line, the opening yields no block. *)
Theorem fenced_block_scanner
    (pre body rest : list pystr) (opening closing : pystr) :
  in_block (scan_from 1 scan_init pre) = false ->
  opens_block opening = true ->
  Forall (fun line => closes_block line = false) body ->
  closes_block closing = true ->
  let start_line := List.length pre + 2 in
  let raw_text := join [0x0A%N] body in
  scan_from 1 scan_init (pre ++ opening :: body ++ [closing]) =
    mkScanState false start_line [] (scan_blocks pre ++ [(start_line, raw_text)])
  /\ (exists more,
        scan_blocks (pre ++ opening :: body ++ closing :: rest) =
        scan_blocks pre ++ (start_line, raw_text) :: more)
  /\ scan_blocks (pre ++ opening :: body) = scan_blocks pre.
Proof.
  intros Hout Hopen Hbody Hclose start_line raw_text.
  assert (Hopened :
    scan_from 1 scan_init (pre ++ opening :: body) =
    mkScanState true start_line body (scan_blocks pre)).
  { rewrite scan_from_app, scan_from_cons.
    rewrite (scan_line_open _ _ _ Hout Hopen).
    rewrite scan_from_body by auto. simpl.
    unfold start_line, scan_blocks. f_equal. lia. }
  assert (Hclosed :
    scan_from 1 scan_init (pre ++ opening :: body ++ [closing]) =
    mkScanState false start_line [] (scan_blocks pre ++ [(start_line, raw_text)])).
  { replace (pre ++ opening :: body ++ [closing])
      with ((pre ++ opening :: body) ++ [closing])
      by (rewrite <- app_assoc; reflexivity).
    rewrite scan_from_app, Hopened, scan_from_cons.
    rewrite scan_line_close by auto. reflexivity. }
  split; [exact Hclosed|]. split.
  - replace (pre ++ opening :: body ++ closing :: rest)
      with ((pre ++ opening :: body ++ [closing]) ++ rest)
      by (rewrite <- app_assoc; simpl; rewrite <- app_assoc; reflexivity).
    unfold scan_blocks at 1. rewrite scan_from_app, Hclosed.
    match goal with
    | |- context [scan_from ?n ?st rest] =>
        destruct (scan_from_blocks_grow rest n st) as [more Hmore]
    end.
    exists more. rewrite Hmore. simpl. now rewrite <- app_assoc.
  - unfold scan_blocks at 1. now rewrite Hopened.
Qed.

(** C8.  A block whose raw text is empty or made of whitespace only is not
    promoted: the sources built from the blocks of a file are those built
    without it, so no source, and with no source no failure, stands for the
    dropped block.  The blocks keep the index they were given. *)
Theorem blank_block_not_promoted
    (fs : FileSystem) (p repo_root : Path)
    (before after : list (nat * (nat * pystr)))
    (block_index start_line : nat) (raw_text : pystr) :
  Forall (fun c => isspace c = true) raw_text ->
  sources_of_blocks fs p repo_root
    (before ++ (block_index, (start_line, raw_text)) :: after) =
  sources_of_blocks fs p repo_root (before ++ after).
Proof.
  intros Hblank. apply strip_empty_iff in Hblank.
  induction before as [|[index [line text]] before IH]; simpl.
  - now rewrite Hblank.
  - now rewrite IH.
Qed.

(** C2 (amended).  A snippet directive with target [t] in the Markdown file
    [m], with repository root [r], is resolved against the candidates
    [dir(m)/t], [r/t], [r/json-schema/t] in this order.  The first for which
    [exists()] answers yes, the earlier ones having answered no, is the file
    read and decoded, whether or not a later one exists: a decode error of
    its text is captured in the source, any other exception of the read or of
    the decoder goes on.  When [exists()] answers no for the three, the
    source carries a decode error whose message is
    [snippet include not found: t].  When [exists()] raises for a candidate
    that is reached, resolution ends with that exception. *)
Theorem snippet_resolution_order
    (fs : FileSystem) (m r : Path) (start_line block_index : nat)
    (t block_text : pystr) :
  let first := joinpath (parent m) t in
  let second := joinpath r t in
  let third := joinpath (joinpath r (lit "json-schema")) t in
  let result := parse_snippet_block fs m start_line block_index t r block_text in
  let resolved (include_path : Path) : Exc SchemaSource :=
    text <- fs_read_text fs include_path ;;
    value <- catch_decode_error (json_loads text) ;;
    Return
      match value with
      | PyJson data =>
          mkSchemaSource m
            (path_str m ++ lit ":" ++ str_of_nat start_line
               ++ lit " (block " ++ str_of_nat block_index
               ++ lit ", include " ++ path_str include_path ++ lit ")")
            (PyJson data)
      | PyDecodeError exc =>
          mkSchemaSource m (block_label m start_line block_index) (PyDecodeError exc)
      end in
  candidate_paths m t r = [first; second; third]
  /\ (fs_exists fs first = Return true -> result = resolved first)
  /\ (fs_exists fs first = Return false -> fs_exists fs second = Return true ->
      result = resolved second)
  /\ (fs_exists fs first = Return false -> fs_exists fs second = Return false ->
      fs_exists fs third = Return true -> result = resolved third)
  /\ (fs_exists fs first = Return false -> fs_exists fs second = Return false ->
      fs_exists fs third = Return false ->
      result =
        Return (mkSchemaSource m (block_label m start_line block_index)
                  (PyDecodeError
                     (mkJSONDecodeError (lit "snippet include not found: " ++ t)
                        block_text 0))))
  /\ (forall e, fs_exists fs first = Raise e -> result = Raise e)
  /\ (forall e, fs_exists fs first = Return false -> fs_exists fs second = Raise e ->
      result = Raise e)
  /\ (forall e, fs_exists fs first = Return false -> fs_exists fs second = Return false ->
      fs_exists fs third = Raise e -> result = Raise e).
Proof.
  intros first second third result resolved.
  assert (Huse : forall include_path,
            first_existing fs (candidate_paths m t r) = Return (Some include_path) ->
            result = resolved include_path).
  { intros include_path Hfind. unfold result, resolved, parse_snippet_block.
    rewrite Hfind. cbn [bind].
    destruct (fs_read_text fs include_path) as [text|e]; cbn [bind]; [|reflexivity].
    destruct (catch_decode_error (json_loads text)) as [[data|exc]|e]; reflexivity. }
  split; [reflexivity|].
  split; [|split; [|split; [|split; [|split; [|split]]]]].
  - intros H1. apply Huse. unfold candidate_paths. cbn [first_existing].
    fold first. now rewrite H1.
  - intros H1 H2. apply Huse. unfold candidate_paths. cbn [first_existing].
    fold first second. now rewrite H1, H2.
  - intros H1 H2 H3. apply Huse. unfold candidate_paths. cbn [first_existing].
    fold first second third. now rewrite H1, H2, H3.
  - intros H1 H2 H3. unfold result, parse_snippet_block, candidate_paths.
    cbn [first_existing]. fold first second third. now rewrite H1, H2, H3.
  - intros e H1. unfold result, parse_snippet_block, candidate_paths.
    cbn [first_existing]. fold first. now rewrite H1.
  - intros e H1 H2. unfold result, parse_snippet_block, candidate_paths.
    cbn [first_existing]. fold first second. now rewrite H1, H2.
  - intros e H1 H2 H3. unfold result, parse_snippet_block, candidate_paths.
    cbn [first_existing]. fold first second third. now rewrite H1, H2, H3.
Qed.

(** With the dialect requirement in force, the loop of [main] runs both
    checks on every source: whatever the dialect check of a source returns,
    failures or none, the structural check of that source is run next and the
    loop goes on to the next source.  The loop hands a failure list to the
    report exactly when the dialect check has returned on every source, and
    the list is then, for each source in discovery order, the dialect
    failures of the source followed by its structural failures. *)
Theorem both_checks_in_discovery_order
    (sources : list SchemaSource) (failures : list pystr) :
  (check_sources false sources [] = Return failures <->
   Forall dialect_check_returns sources
   /\ failures =
        flat_map (fun source => dialect_failures source ++ structural_failures source)
                 sources)
  /\ (forall source rest found so_far,
        require_draft07 (schema source) (label source) = Return found ->
        check_sources false (source :: rest) so_far =
        check_sources false rest
          (so_far ++ found ++ validate_schema (schema source) (label source))).
Proof.
  split; [apply check_sources_require_iff|].
  intros source rest found so_far Hfound. simpl. rewrite Hfound. simpl.
  now rewrite <- app_assoc.
Qed.

(** With the option that suppresses the dialect requirement set, the
    run has no dialect failure: it returns the structural failures of each
    source in turn.  Those are the structural failures of the run with the
    option unset, where they follow the dialect failures of the same
    source. *)
Theorem suppressed_dialect_keeps_structural (sources : list SchemaSource) :
  check_sources true sources [] = Return (flat_map structural_failures sources)
  /\ (forall failures,
        check_sources false sources [] = Return failures ->
        failures =
          flat_map (fun source => dialect_failures source ++ structural_failures source)
                   sources)
  /\ (Forall dialect_check_returns sources ->
      exists failures, check_sources false sources [] = Return failures).
Proof.
  split; [apply check_sources_allow|]. split.
  - intros failures H. now apply check_sources_require_iff in H.
  - intros Hall. eexists. now apply check_sources_require.
Qed.

(** A source that carries a captured decode error is reported twice
    when the dialect requirement is in force.  The dialect check returns
    [schema must be a JSON object] for it, the structural check the
    [invalid JSON] failure with the message of the error, and the loop adds
    the two, the first right before the second, to the failures found so
    far; in a run they stand between the failures of the sources before and
    those of the sources after. *)
Theorem decode_error_reported_twice
    (source : SchemaSource) (exc : JSONDecodeError) :
  schema source = PyDecodeError exc ->
  let dialect_line := label source ++ lit ": schema must be a JSON object" in
  let structural_line := label source ++ lit ": invalid JSON (" ++ msg exc ++ lit ")" in
  require_draft07 (schema source) (label source) = Return [dialect_line]
  /\ validate_schema (schema source) (label source) = [structural_line]
  /\ (forall rest failures,
        check_sources false (source :: rest) failures =
        check_sources false rest (failures ++ [dialect_line; structural_line]))
  /\ (forall before after earlier later,
        check_sources false before [] = Return earlier ->
        check_sources false after [] = Return later ->
        check_sources false (before ++ source :: after) [] =
          Return (earlier ++ [dialect_line; structural_line] ++ later)).
Proof.
  intros Hexc dialect_line structural_line.
  assert (Hstep : forall rest failures,
            check_sources false (source :: rest) failures =
            check_sources false rest (failures ++ [dialect_line; structural_line])).
  { intros rest failures. simpl. rewrite Hexc. simpl.
    now rewrite <- app_assoc. }
  split; [now rewrite Hexc|]. split; [now rewrite Hexc|]. split; [exact Hstep|].
  intros before after earlier later Hbefore Hafter.
  rewrite check_sources_app, Hbefore. cbn [bind].
  rewrite Hstep, check_sources_acc, Hafter. cbn [bind].
  now rewrite <- app_assoc.
Qed.

(** C6.  On a source that carries a captured decode error the structural
    validator returns one failure, [invalid JSON] with the message of the
    error, and that for every meta-schema validator: the validator is not
    consulted.  On a value that is not an object it returns
    [schema must be a JSON object], whether the dialect check has run or not:
    with the dialect requirement in force the message appears twice for the
    source, with the requirement suppressed once. *)
Theorem structural_validator_early_returns (source_label : pystr) :
  (forall exc,
     validate_schema (PyDecodeError exc) source_label =
       [source_label ++ lit ": invalid JSON (" ++ msg exc ++ lit ")"])
  /\ (forall value,
        (forall pairs, value <> JObj pairs) ->
        validate_schema (PyJson value) source_label =
          [source_label ++ lit ": schema must be a JSON object"])
  /\ (forall source value,
        schema source = PyJson value ->
        (forall pairs, value <> JObj pairs) ->
        label source = source_label ->
        check_sources false [source] [] =
          Return [source_label ++ lit ": schema must be a JSON object";
                  source_label ++ lit ": schema must be a JSON object"]
        /\ check_sources true [source] [] =
             Return [source_label ++ lit ": schema must be a JSON object"]).
Proof.
  assert (Hvalue : forall value, (forall pairs, value <> JObj pairs) ->
            validate_schema (PyJson value) source_label =
              [source_label ++ lit ": schema must be a JSON object"]).
  { intros value Hno. destruct value; try reflexivity. exfalso. now apply (Hno pairs). }
  split; [reflexivity|]. split; [exact Hvalue|].
  intros source value Hschema Hno Hlabel. simpl.
  rewrite Hschema, Hlabel, (Hvalue _ Hno).
  rewrite require_draft07_not_object.
  - split; reflexivity.
  - intros pairs E. inversion E. now apply (Hno pairs).
Qed.


End Properties.

(* ------------------------------------------------------------------ *)
(** ** The script on the example trees *)

(** C1.  A [.json] file with malformed JSON is not turned into a source that
    carries the error: [parse_json_file] raises the decode error, collecting
    the sources of the directory raises it, and [main] ends with it, so that
    nothing is reported for the well-formed file next to the broken one.  The
    same text in a block of a Markdown file is captured and reported as two
    labelled failures. *)
Theorem malformed_json_file_aborts_scan :
  parse_json_file (Example.file_system Example.tree_with_malformed_file)
    Example.broken_file = Raise (ExcJSONDecodeError Example.open_brace_error)
  /\ iter_schema_sources (Example.file_system Example.tree_with_malformed_file)
       [Example.schemas_dir] = Raise (ExcJSONDecodeError Example.open_brace_error)
  /\ main (Example.file_system Example.tree_with_malformed_file)
       (mkArgs [Example.schemas_dir] false) =
     Raise (ExcJSONDecodeError Example.open_brace_error)
  /\ main (Example.file_system Example.tree_with_malformed_file)
       (mkArgs [Example.schemas_dir] true) =
     Raise (ExcJSONDecodeError Example.open_brace_error)
  /\ main (Example.file_system Example.tree_with_malformed_block)
       (mkArgs [Example.docs_dir] false) =
     Return (1%Z,
             [ lit "Schema verification failed:" ++ [0x0A%N];
               lit "- docs/schemas.md:2 (block 1): schema must be a JSON object";
               lit "- docs/schemas.md:2 (block 1): invalid JSON (Expecting property name enclosed in double quotes)" ]).
Proof.
  repeat split; vm_compute; reflexivity.
Qed.

(** C5.  The dialect check on an object whose [$schema] entry is a JSON array
    returns no failure naming the entry: the membership test raises
    [TypeError], and [main] ends with it although a second, valid file is
    there to be checked. *)
Theorem dialect_check_raises_on_list_valued_dialect :
  (forall (RT : Runtime) (source_label : pystr),
     require_draft07 (PyJson (JObj [(lit "$schema", JArr [])])) source_label =
       Raise (ExcTypeError (lit "unhashable type: 'list'")))
  /\ main (Example.file_system Example.tree_with_list_dialect)
          (mkArgs [Example.schemas_dir] false) =
       Raise (ExcTypeError (lit "unhashable type: 'list'")).
Proof.
  split; [intros RT source_label; reflexivity | vm_compute; reflexivity].
Qed.

(** The scanner on the first lines of the example page: a heading, an
    indented fence in capitals with a title, two lines, a closing fence that
    carries a word. *)
Lemma fenced_block_scanner_witness :
  in_block (scan_from (RT := Example.runtime) 1 scan_init [lit "# Schemas"]) = false
  /\ opens_block (RT := Example.runtime) (lit "  ```JSON title") = true
  /\ Forall (fun line => closes_block line = false) [lit "{"; lit "}"]
  /\ closes_block (lit "```text") = true
  /\ scan_from (RT := Example.runtime) 1 scan_init
       ([lit "# Schemas"] ++ lit "  ```JSON title" :: [lit "{"; lit "}"] ++ [lit "```text"]) =
     mkScanState false 3 [] [(3, lit "{" ++ [0x0A%N] ++ lit "}")]
  /\ (exists more,
        scan_blocks (RT := Example.runtime)
          ([lit "# Schemas"] ++ lit "  ```JSON title" :: [lit "{"; lit "}"]
             ++ lit "```text" :: [lit "```json"; lit "{"]) =
        (3, lit "{" ++ [0x0A%N] ++ lit "}") :: more)
  /\ scan_blocks (RT := Example.runtime)
       ([lit "# Schemas"] ++ lit "  ```JSON title" :: [lit "{"; lit "}"]) = [].
Proof.
  assert (Hout : in_block (scan_from (RT := Example.runtime) 1 scan_init [lit "# Schemas"]) = false)
    by reflexivity.
  assert (Hopen : opens_block (RT := Example.runtime) (lit "  ```JSON title") = true)
    by reflexivity.
  assert (Hbody : Forall (fun line => closes_block line = false) [lit "{"; lit "}"])
    by (repeat constructor).
  assert (Hclose : closes_block (lit "```text") = true) by reflexivity.
  split; [exact Hout|]. split; [exact Hopen|]. split; [exact Hbody|].
  split; [exact Hclose|].
  exact (fenced_block_scanner (RT := Example.runtime) [lit "# Schemas"] [lit "{"; lit "}"]
           [lit "```json"; lit "{"] (lit "  ```JSON title") (lit "```text")
           Hout Hopen Hbody Hclose).
Defined.

(** The third block of the example page holds three spaces. *)
Lemma blank_block_not_promoted_witness :
  Forall (fun c => isspace c = true) (lit "   ")
  /\ sources_of_blocks (Example.file_system Example.tree_with_page) Example.page []
       ([(1, (3, lit "{" ++ [0x0A%N] ++ lit "}"))]
          ++ (3, (10, lit "   ")) :: [(4, (13, lit "{}"))]) =
     sources_of_blocks (Example.file_system Example.tree_with_page) Example.page []
       ([(1, (3, lit "{" ++ [0x0A%N] ++ lit "}"))] ++ [(4, (13, lit "{}"))]).
Proof.
  assert (Hblank : Forall (fun c => isspace c = true) (lit "   "))
    by (repeat constructor).
  split; [exact Hblank|].
  exact (blank_block_not_promoted (Example.file_system Example.tree_with_page)
           Example.page [] [(1, (3, lit "{" ++ [0x0A%N] ++ lit "}"))]
           [(4, (13, lit "{}"))] 3 10 (lit "   ") Hblank).
Defined.

(** The two directives of the example page: [point.json] is found at the
    third candidate only, [absent.json] nowhere. *)
Lemma snippet_resolution_order_witness :
  fs_exists (Example.file_system Example.tree_with_page)
    [lit "docs"; lit "point.json"] = Return false
  /\ fs_exists (Example.file_system Example.tree_with_page) [lit "point.json"] =
       Return false
  /\ fs_exists (Example.file_system Example.tree_with_page)
       [lit "json-schema"; lit "point.json"] = Return true
  /\ parse_snippet_block (Example.file_system Example.tree_with_page) Example.page
       7 2 (lit "point.json") [] (lit "--8<-- 'point.json'") =
     Return (mkSchemaSource Example.page
               (lit "docs/page.md:7 (block 2, include json-schema/point.json)")
               (PyJson (JObj [(lit "$schema",
                               JStr (lit "http://json-schema.org/draft-07/schema#"))])))
  /\ parse_snippet_block (Example.file_system Example.tree_with_page) Example.page
       13 4 (lit "absent.json") [] (lit "--8<-- 'absent.json'") =
     Return (mkSchemaSource Example.page (lit "docs/page.md:13 (block 4)")
               (PyDecodeError
                  (mkJSONDecodeError (lit "snippet include not found: absent.json")
                     (lit "--8<-- 'absent.json'") 0))).
Proof.
  assert (H1 : fs_exists (Example.file_system Example.tree_with_page)
                 [lit "docs"; lit "point.json"] = Return false) by reflexivity.
  assert (H2 : fs_exists (Example.file_system Example.tree_with_page)
                 [lit "point.json"] = Return false) by reflexivity.
  assert (H3 : fs_exists (Example.file_system Example.tree_with_page)
                 [lit "json-schema"; lit "point.json"] = Return true) by reflexivity.
  split; [exact H1|]. split; [exact H2|]. split; [exact H3|]. split.
  - destruct (snippet_resolution_order (Example.file_system Example.tree_with_page)
                Example.page [] 7 2 (lit "point.json") (lit "--8<-- 'point.json'"))
      as (_ & _ & _ & Hthird & _).
    exact (Hthird H1 H2 H3).
  - destruct (snippet_resolution_order (Example.file_system Example.tree_with_page)
                Example.page [] 13 4 (lit "absent.json") (lit "--8<-- 'absent.json'"))
      as (_ & _ & _ & _ & Hnone & _).
    apply Hnone; reflexivity.
Defined.

(** A target of 256 characters exists at none of the three candidates, yet
    the directive gives no source: the first existence test raises, and the
    exception ends the resolution. *)
Lemma snippet_resolution_long_target_raises :
  parse_snippet_block (Example.file_system Example.tree_with_page) Example.page
    7 2 Example.long_target [] (lit "--8<-- 'a...a'") =
    Raise (ExcOSError (lit "[Errno 36] File name too long"))
  /\ ~ (exists source,
          parse_snippet_block (Example.file_system Example.tree_with_page) Example.page
            7 2 Example.long_target [] (lit "--8<-- 'a...a'") = Return source).
Proof.
  assert (Hraise :
    parse_snippet_block (Example.file_system Example.tree_with_page) Example.page
      7 2 Example.long_target [] (lit "--8<-- 'a...a'") =
      Raise (ExcOSError (lit "[Errno 36] File name too long")))
    by (vm_compute; reflexivity).
  split; [exact Hraise|].
  intros (source & Hsource). rewrite Hraise in Hsource. discriminate.
Qed.

Lemma page_sources_checkable :
  Forall (dialect_check_returns (RT := Example.runtime)) Example.page_sources.
Proof.
  repeat (apply Forall_cons; [eexists; reflexivity|]). apply Forall_nil.
Defined.

(** The run on the three sources of the example page. *)
Lemma both_checks_in_discovery_order_witness :
  Forall dialect_check_returns Example.page_sources
  /\ check_sources false Example.page_sources [] = Return Example.page_failures.
Proof.
  split; [exact page_sources_checkable|].
  exact (proj2 (proj1 (both_checks_in_discovery_order Example.page_sources
                         Example.page_failures))
           (conj page_sources_checkable eq_refl)).
Defined.

Lemma suppressed_dialect_keeps_structural_witness :
  check_sources true Example.page_sources [] =
    Return [lit "docs/page.md:13 (block 4): invalid JSON (snippet include not found: absent.json)"]
  /\ check_sources false Example.page_sources [] = Return Example.page_failures
  /\ Example.page_failures =
       flat_map (fun source => dialect_failures source ++ structural_failures source)
                Example.page_sources.
Proof.
  assert (Hunset : check_sources false Example.page_sources [] =
                   Return Example.page_failures) by (vm_compute; reflexivity).
  split; [|split].
  - exact (proj1 (suppressed_dialect_keeps_structural Example.page_sources)).
  - exact Hunset.
  - exact (proj1 (proj2 (suppressed_dialect_keeps_structural Example.page_sources))
             Example.page_failures Hunset).
Defined.

(** The last source of the example page, after the two others. *)
Lemma decode_error_reported_twice_witness :
  schema Example.missing_include_source = PyDecodeError Example.missing_include_error
  /\ check_sources false
       (Example.resolved_sources ++ Example.missing_include_source :: []) [] =
     Return ([lit "docs/page.md:3 (block 1): $schema must be Draft 07 (got None)"]
               ++ [lit "docs/page.md:13 (block 4): schema must be a JSON object";
                   lit "docs/page.md:13 (block 4): invalid JSON (snippet include not found: absent.json)"]
               ++ []).
Proof.
  assert (Hexc : schema Example.missing_include_source =
                 PyDecodeError Example.missing_include_error) by reflexivity.
  split; [exact Hexc|].
  refine (proj2 (proj2 (proj2
            (decode_error_reported_twice Example.missing_include_source
               Example.missing_include_error Hexc)))
            Example.resolved_sources [] _ [] _ _);
    vm_compute; reflexivity.
Defined.

Lemma structural_validator_early_returns_witness :
  schema Example.array_source = PyJson (JArr [])
  /\ (forall pairs, JArr [] <> JObj pairs)
  /\ label Example.array_source = lit "schemas/array.json"
  /\ check_sources false [Example.array_source] [] =
       Return [lit "schemas/array.json: schema must be a JSON object";
               lit "schemas/array.json: schema must be a JSON object"]
  /\ check_sources true [Example.array_source] [] =
       Return [lit "schemas/array.json: schema must be a JSON object"].
Proof.
  assert (Hschema : schema Example.array_source = PyJson (JArr [])) by reflexivity.
  assert (Hno : forall pairs, JArr [] <> JObj pairs) by (intros pairs; discriminate).
  assert (Hlabel : label Example.array_source = lit "schemas/array.json") by reflexivity.
  split; [exact Hschema|]. split; [exact Hno|]. split; [exact Hlabel|].
  exact (proj2 (proj2 (structural_validator_early_returns (RT := Example.runtime)
                         (lit "schemas/array.json")))
           Example.array_source (JArr []) Hschema Hno Hlabel).
Defined.



(** *** The dialect check that raises, in the loop of [main] *)

(** C4.  With the dialect requirement in force and the list of sources
    [{"$schema": []}], then [[]]: the dialect check of the first source
    raises [TypeError], so its structural check is not run, neither check is
    run on the second source, and there is no failure list.  The second
    source alone gets both checks and two failures. *)
Theorem checks_not_run_after_list_valued_dialect :
  check_sources false [Example.list_source; Example.array_source] [] =
    Raise (ExcTypeError (lit "unhashable type: 'list'"))
  /\ check_sources false [Example.array_source] [] =
       Return [lit "schemas/array.json: schema must be a JSON object";
               lit "schemas/array.json: schema must be a JSON object"].
Proof.
  split; vm_compute; reflexivity.
Qed.


(** C10.  A source that carries a captured decode error, followed by the
    source [{"$schema": []}]: the run ends with [TypeError] and reports
    neither of the two failures of the first source, which alone is reported
    twice. *)
Theorem decode_error_unreported_before_list_valued_dialect :
  check_sources false [Example.missing_include_source; Example.list_source] [] =
    Raise (ExcTypeError (lit "unhashable type: 'list'"))
  /\ check_sources false [Example.missing_include_source] [] =
       Return [lit "docs/page.md:13 (block 4): schema must be a JSON object";
               lit "docs/page.md:13 (block 4): invalid JSON (snippet include not found: absent.json)"].
Proof.
  split; vm_compute; reflexivity.
Qed.

(* ------------------------------------------------------------------ *)
(** ** Further properties of the script *)

(** *** Text *)

Lemma startswith_app (prefix rest : pystr) : startswith (prefix ++ rest) prefix = true.
Proof.
  induction prefix as [|c prefix IH]; simpl.
  - now destruct rest.
  - now rewrite N.eqb_refl, IH.
Qed.

Lemma startswith_split (s prefix : pystr) :
  startswith s prefix = true -> s = prefix ++ skipn (List.length prefix) s.
Proof.
  revert s. induction prefix as [|c prefix IH]; intros s H.
  - reflexivity.
  - destruct s as [|x s]; simpl in H; [discriminate|].
    apply andb_true_iff in H as [Hx Hs]. apply N.eqb_eq in Hx. subst x.
    simpl. f_equal. now apply IH.
Qed.

Lemma skipn_app_exact {A : Type} (prefix rest : list A) :
  skipn (List.length prefix) (prefix ++ rest) = rest.
Proof. induction prefix; simpl; auto. Qed.

Lemma lstrip_spaces_app (spaces s : pystr) :
  Forall (fun c => isspace c = true) spaces -> lstrip (spaces ++ s) = lstrip s.
Proof.
  induction 1 as [|c spaces Hc _ IH]; simpl; [reflexivity|]. now rewrite Hc.
Qed.

Lemma lstrip_head (s : pystr) (c : N) (rest : pystr) :
  lstrip s = c :: rest -> isspace c = false.
Proof.
  induction s as [|x s IH]; simpl; [discriminate|].
  destruct (isspace x) eqn:E; [exact IH|]. intros H. inversion H; subst. exact E.
Qed.

(** What [lstrip] drops is whitespace. *)
Lemma lstrip_split (s : pystr) :
  exists spaces, s = spaces ++ lstrip s /\ Forall (fun c => isspace c = true) spaces.
Proof.
  induction s as [|c s (spaces & Hs & Hall)]; simpl.
  - exists []. split; [reflexivity | constructor].
  - destruct (isspace c) eqn:E.
    + exists (c :: spaces). split; [simpl; now rewrite <- Hs | now constructor].
    + exists []. split; [reflexivity | constructor].
Qed.

Lemma is_quote_not_space (c : N) : is_quote c = true -> isspace c = false.
Proof.
  unfold is_quote. rewrite orb_true_iff, !N.eqb_eq. intros [-> | ->]; reflexivity.
Qed.

Lemma span_not_quote_split (s : pystr) :
  let (run, rest) := span_not_quote s in
  s = run ++ rest
  /\ Forall (fun c => is_quote c = false) run
  /\ match rest with [] => True | c :: _ => is_quote c = true end.
Proof.
  induction s as [|c s IH]; simpl.
  - repeat split. constructor.
  - destruct (is_quote c) eqn:E.
    + repeat split; [constructor | exact E].
    + destruct (span_not_quote s) as [run rest]. destruct IH as (Hs & Hrun & Hrest).
      repeat split; [simpl; now rewrite <- Hs | now constructor | exact Hrest].
Qed.

Lemma span_not_quote_app (run : pystr) (q : N) (tail : pystr) :
  Forall (fun c => is_quote c = false) run -> is_quote q = true ->
  span_not_quote (run ++ q :: tail) = (run, q :: tail).
Proof.
  intros Hrun Hq. induction Hrun as [|c run Hc _ IH]; simpl.
  - now rewrite Hq.
  - now rewrite Hc, IH.
Qed.

(** X1.  The include directive pattern matches a text exactly when the text
    is the marker [--8<--], at least one whitespace character, a quote, a
    non-empty target free of quotes, a quote, and whitespace up to the end;
    the group is the target.  The two quotes need not be the same
    character. *)
Theorem snippet_directive_shape (s target : pystr) :
  SNIPPET_DIRECTIVE_RE_match s = Some target <->
  exists gap q1 q2 tail,
    s = lit "--8<--" ++ gap ++ q1 :: target ++ q2 :: tail
    /\ gap <> []
    /\ Forall (fun c => isspace c = true) gap
    /\ is_quote q1 = true
    /\ is_quote q2 = true
    /\ target <> []
    /\ Forall (fun c => is_quote c = false) target
    /\ Forall (fun c => isspace c = true) tail.
Proof.
  unfold SNIPPET_DIRECTIVE_RE_match. split.
  - destruct (startswith s (lit "--8<--")) eqn:Hmarker; [|discriminate].
    apply startswith_split in Hmarker.
    change (List.length (lit "--8<--")) with 6 in Hmarker.
    destruct (skipn 6 s) as [|c after_marker] eqn:Hskip; [discriminate|].
    destruct (isspace c) eqn:Hc; [|discriminate].
    destruct (lstrip_split after_marker) as (spaces & Hafter & Hspaces).
    destruct (lstrip after_marker) as [|q after_quote] eqn:Hstrip; [discriminate|].
    destruct (is_quote q) eqn:Hq; [|discriminate].
    pose proof (span_not_quote_split after_quote) as Hspan.
    destruct (span_not_quote after_quote) as [run rest].
    destruct Hspan as (Hsplit & Hrun & Hrest).
    destruct run as [|c1 run]; [discriminate|].
    destruct rest as [|q2 tail]; [discriminate|].
    destruct (forallb isspace tail) eqn:Htail; [|discriminate].
    intros H. inversion H; subst target.
    exists (c :: spaces), q, q2, tail. repeat split; auto.
    + rewrite Hmarker. f_equal. simpl. f_equal. rewrite Hafter. f_equal.
      f_equal. exact Hsplit.
    + discriminate.
    + discriminate.
    + apply Forall_forall. intros x Hx.
      rewrite forallb_forall in Htail. now apply Htail.
  - intros (gap & q1 & q2 & tail & -> & Hgap & Hspaces & Hq1 & Hq2 & Htarget & Hfree & Htail).
    rewrite startswith_app.
    change 6 with (List.length (lit "--8<--")). rewrite skipn_app_exact.
    destruct gap as [|c gap]; [congruence|].
    inversion Hspaces as [|? ? Hc Hgap']; subst. simpl app. cbv iota beta. rewrite Hc.
    rewrite lstrip_spaces_app by assumption.
    simpl lstrip. rewrite (is_quote_not_space _ Hq1), Hq1.
    rewrite span_not_quote_app by assumption.
    destruct target as [|c1 target]; [congruence|].
    assert (Hall : forallb isspace tail = true).
    { apply forallb_forall. intros x Hx. rewrite Forall_forall in Htail. now apply Htail. }
    now rewrite Hall.
Qed.

Lemma strip_padded (before s after : pystr) :
  Forall (fun c => isspace c = true) before ->
  Forall (fun c => isspace c = true) after ->
  strip (before ++ s ++ after) = strip s.
Proof.
  intros Hbefore Hafter. unfold strip. rewrite lstrip_spaces_app by assumption.
  assert (Hr : forall t, rstrip (t ++ after) = rstrip t).
  { intros t. unfold rstrip. rewrite rev_app_distr.
    rewrite lstrip_spaces_app; [reflexivity | now apply Forall_rev]. }
  destruct (lstrip s) as [|c rest] eqn:E.
  - apply lstrip_all_space in E.
    assert (Hall : lstrip (s ++ after) = []).
    { apply lstrip_all_space. apply Forall_app. now split. }
    now rewrite Hall.
  - assert (Hkeep : lstrip (s ++ after) = (c :: rest) ++ after).
    { clear Hr. induction s as [|x s IH]; simpl in *; [discriminate|].
      destruct (isspace x); [now apply IH | now inversion E]. }
    rewrite Hkeep. apply Hr.
Qed.

Lemma StronglySorted_snoc (l : list nat) (x : nat) :
  StronglySorted lt l -> Forall (fun y => y < x) l -> StronglySorted lt (l ++ [x]).
Proof.
  induction 1 as [|y l Hl IH Hy]; intros Hx; simpl.
  - repeat constructor.
  - inversion Hx; subst. constructor; [now apply IH|].
    apply Forall_app. split; [assumption | now repeat constructor].
Qed.

(** *** Decimal texts *)

Lemma lit_inj (a b : string) : lit a = lit b -> a = b.
Proof.
  unfold lit. intros H.
  rewrite <- (string_of_list_ascii_of_string a), <- (string_of_list_ascii_of_string b).
  f_equal. revert H. generalize (list_ascii_of_string a) (list_ascii_of_string b).
  intros xs. induction xs as [|x xs IH]; intros [|y ys] H; simpl in H;
    try discriminate; [reflexivity|].
  inversion H as [[Hx Hxs]]. f_equal; [|now apply IH].
  rewrite <- (ascii_N_embedding x), <- (ascii_N_embedding y). now rewrite Hx.
Qed.

Lemma str_of_nat_inj (m n : nat) : str_of_nat m = str_of_nat n -> m = n.
Proof.
  unfold str_of_nat. intros H. apply lit_inj in H.
  assert (Hd : Nat.to_uint m = Nat.to_uint n).
  { pose proof (NilEmpty.usu (Nat.to_uint m)) as Hm.
    pose proof (NilEmpty.usu (Nat.to_uint n)) as Hn.
    rewrite H in Hm. rewrite Hm in Hn. now inversion Hn. }
  rewrite <- (Unsigned.of_to m), <- (Unsigned.of_to n). now rewrite Hd.
Qed.

Lemma str_of_nat_digits (n : nat) :
  Forall (fun c => is_decimal_digit c = true) (str_of_nat n).
Proof.
  unfold str_of_nat. generalize (Nat.to_uint n). intros d.
  induction d; simpl; try constructor; try reflexivity; assumption.
Qed.

(** Two texts that start with digits and go on with something else agree on
    the digits when they agree. *)
Lemma digits_then_other (d1 d2 : pystr) (x y : N) (r1 r2 : pystr) :
  Forall (fun c => is_decimal_digit c = true) d1 ->
  Forall (fun c => is_decimal_digit c = true) d2 ->
  is_decimal_digit x = false -> is_decimal_digit y = false ->
  d1 ++ x :: r1 = d2 ++ y :: r2 ->
  d1 = d2 /\ x :: r1 = y :: r2.
Proof.
  intros H1. revert d2. induction H1 as [|c d1 Hc _ IH]; intros d2 H2 Hx Hy Heq.
  - destruct d2 as [|c2 d2]; [now split|].
    simpl in Heq. inversion Heq; subst. inversion H2; subst. congruence.
  - destruct d2 as [|c2 d2]; simpl in Heq.
    + inversion Heq; subst. congruence.
    + inversion Heq; subst. inversion H2; subst.
      destruct (IH d2) as [-> Hrest]; auto.
Qed.

Section MoreProperties.
Context `{RT : Runtime}.

(** *** The line loop *)

Lemma scan_line_invariant (k : nat) (st : ScanState) (line : pystr) :
  1 <= k -> scan_invariant k st -> scan_invariant (S k) (scan_line st (k, line)).
Proof.
  intros Hk (Hsorted & Hrange & Hopen).
  assert (Hwider : Forall (fun block : nat * pystr => 2 <= fst block < S k) (blocks st)).
  { eapply Forall_impl; [|exact Hrange]. simpl. intros b Hb. lia. }
  destruct (in_block st) eqn:Hin.
  - destruct (Hopen eq_refl) as (Hstart & Hbelow).
    destruct (closes_block line) eqn:Hclose.
    + rewrite scan_line_close by assumption. split; [|split]; simpl.
      * rewrite map_app. simpl. apply StronglySorted_snoc; [assumption|].
        apply Forall_map. exact Hbelow.
      * apply Forall_app. split; [exact Hwider|].
        constructor; [simpl; lia | constructor].
      * discriminate.
    + rewrite scan_line_inside by assumption. split; [|split]; simpl.
      * exact Hsorted.
      * exact Hwider.
      * intros _. split; [lia | exact Hbelow].
  - destruct (opens_block line) eqn:Hopens.
    + rewrite scan_line_open by assumption. split; [|split]; simpl.
      * exact Hsorted.
      * exact Hwider.
      * intros _. split; [lia|].
        eapply Forall_impl; [|exact Hrange]. simpl. intros b Hb. lia.
    + rewrite scan_line_outside by assumption. split; [|split].
      * exact Hsorted.
      * exact Hwider.
      * intros H. congruence.
Qed.

Lemma scan_from_invariant (lines : list pystr) :
  forall (k : nat) (st : ScanState),
  1 <= k -> scan_invariant k st ->
  scan_invariant (k + List.length lines) (scan_from k st lines).
Proof.
  induction lines as [|line lines IH]; intros k st Hk Hinv.
  - simpl. now rewrite Nat.add_0_r.
  - rewrite scan_from_cons. simpl List.length. rewrite Nat.add_succ_r.
    apply (IH (S k)); [lia|]. now apply scan_line_invariant.
Qed.

(** X2.  The blocks of a Markdown file come out in file order: their start
    lines strictly increase, and each lies between 2 and the number of lines
    of the file, a block starting after its opening fence and ending at a
    closing fence. *)
Theorem block_start_lines_increase (lines : list pystr) :
  StronglySorted lt (map fst (scan_blocks lines))
  /\ Forall (fun block => 2 <= fst block <= List.length lines) (scan_blocks lines).
Proof.
  assert (Hinit : scan_invariant 1 scan_init).
  { repeat split; simpl; try constructor; discriminate. }
  destruct (scan_from_invariant lines 1 scan_init (le_n 1) Hinit) as (Hsorted & Hrange & _).
  split; [exact Hsorted|].
  eapply Forall_impl; [|exact Hrange]. simpl. intros b Hb. lia.
Qed.

Lemma scan_line_counts (k : nat) (st : ScanState) (line : pystr) :
  let next := scan_line st (k, line) in
  let opening := if opens_block line then 1 else 0 in
  let closing := if closes_block line then 1 else 0 in
  List.length (blocks next) + open_blocks next
    <= List.length (blocks st) + open_blocks st + opening
  /\ List.length (blocks next) <= List.length (blocks st) + closing
  /\ 2 * List.length (blocks next) + open_blocks next
       <= 2 * List.length (blocks st) + open_blocks st + 1.
Proof.
  unfold open_blocks. destruct (in_block st) eqn:Hin.
  - destruct (closes_block line) eqn:Hclose.
    + rewrite scan_line_close by assumption. simpl. rewrite length_app. simpl.
      destruct (opens_block line); lia.
    + rewrite scan_line_inside by assumption. simpl. destruct (opens_block line); lia.
  - destruct (opens_block line) eqn:Hopens.
    + rewrite scan_line_open by assumption. simpl. destruct (closes_block line); lia.
    + rewrite scan_line_outside by assumption. rewrite Hin.
      destruct (closes_block line); lia.
Qed.

Lemma scan_from_counts (lines : list pystr) :
  forall (k : nat) (st : ScanState),
  let final := scan_from k st lines in
  List.length (blocks final) + open_blocks final
    <= List.length (blocks st) + open_blocks st
       + List.length (filter opens_block lines)
  /\ List.length (blocks final)
       <= List.length (blocks st) + List.length (filter closes_block lines)
  /\ 2 * List.length (blocks final) + open_blocks final
       <= 2 * List.length (blocks st) + open_blocks st + List.length lines.
Proof.
  induction lines as [|line lines IH]; intros k st; cbv zeta.
  - unfold scan_from. simpl. lia.
  - rewrite scan_from_cons.
    pose proof (IH (S k) (scan_line st (k, line))) as H.
    pose proof (scan_line_counts k st line) as S1.
    cbv zeta in H, S1. cbn [filter List.length].
    destruct (opens_block line), (closes_block line); cbn [List.length]; lia.
Qed.

Lemma scan_blocks_counts (lines : list pystr) :
  List.length (scan_blocks lines) <= List.length (filter opens_block lines)
  /\ List.length (scan_blocks lines) <= List.length (filter closes_block lines)
  /\ 2 * List.length (scan_blocks lines) <= List.length lines.
Proof.
  destruct (scan_from_counts lines 1 scan_init) as (H1 & H2 & H3).
  unfold scan_blocks. unfold open_blocks in *. simpl in *.
  destruct (in_block (scan_from 1 scan_init lines)); lia.
Qed.

(** X3.  A Markdown file has at most as many blocks as lines that open one,
    at most as many as lines that close one, and at most half as many as
    lines: every block takes an opening line and a closing line of its
    own. *)
Theorem block_count_bounded (lines : list pystr) :
  List.length (scan_blocks lines) <= List.length (filter opens_block lines)
  /\ List.length (scan_blocks lines) <= List.length (filter closes_block lines)
  /\ 2 * List.length (scan_blocks lines) <= List.length lines.
Proof.
  pose proof (scan_from_counts lines 1 scan_init) as Hcounts.
  cbv zeta in Hcounts. unfold scan_blocks, open_blocks in *. simpl in Hcounts.
  destruct (in_block (scan_from 1 scan_init lines)); lia.
Qed.

(** X4.  Fences are recognised whatever whitespace surrounds them on the
    line, so an indented fence opens or closes a block as a fence at the
    margin does; a line kept as content is kept as it is, whitespace
    included. *)
Theorem fences_ignore_padding
    (st : ScanState) (k : nat) (before line after : pystr) :
  Forall (fun c => isspace c = true) before ->
  Forall (fun c => isspace c = true) after ->
  let padded := before ++ line ++ after in
  opens_block padded = opens_block line
  /\ closes_block padded = closes_block line
  /\ in_block (scan_line st (k, padded)) = in_block (scan_line st (k, line))
  /\ block_start_line (scan_line st (k, padded)) = block_start_line (scan_line st (k, line))
  /\ blocks (scan_line st (k, padded)) = blocks (scan_line st (k, line))
  /\ (in_block st = true -> closes_block line = false ->
      block_lines (scan_line st (k, padded)) = block_lines st ++ [padded]).
Proof.
  intros Hbefore Hafter padded.
  assert (Hstrip : strip padded = strip line) by now apply strip_padded.
  assert (Hopens : opens_block padded = opens_block line)
    by (unfold opens_block; now rewrite Hstrip).
  assert (Hcloses : closes_block padded = closes_block line)
    by (unfold closes_block; now rewrite Hstrip).
  split; [exact Hopens|]. split; [exact Hcloses|].
  destruct (in_block st) eqn:Hin.
  - destruct (closes_block line) eqn:Hclose.
    + rewrite !scan_line_close by congruence. repeat split. discriminate.
    + rewrite !scan_line_inside by congruence. repeat split.
  - destruct (opens_block line) eqn:Hopen.
    + rewrite !scan_line_open by congruence. repeat split. discriminate.
    + rewrite !scan_line_outside by congruence. repeat split. discriminate.
Qed.

(** *** The block loop *)

Lemma parse_snippet_block_path
    (fs : FileSystem) (p r : Path) (start_line block_index : nat)
    (target text : pystr) (source : SchemaSource) :
  parse_snippet_block fs p start_line block_index target r text = Return source ->
  path source = p.
Proof.
  unfold parse_snippet_block.
  destruct (first_existing fs (candidate_paths p target r)) as [[include_path|]|e];
    cbn [bind]; [| |discriminate].
  - destruct (fs_read_text fs include_path) as [content|e]; cbn [bind]; [|discriminate].
    destruct (catch_decode_error (json_loads content)) as [[data|exc]|e]; cbn [bind];
      try discriminate; intros H; inversion H; reflexivity.
  - intros H. inversion H. reflexivity.
Qed.

Lemma parse_json_block_path
    (p : Path) (start_line block_index : nat) (text : pystr) (source : SchemaSource) :
  parse_json_block p start_line block_index text = Return source -> path source = p.
Proof.
  unfold parse_json_block.
  destruct (catch_decode_error (json_loads text)); cbn [bind]; [|discriminate].
  intros H. inversion H. reflexivity.
Qed.

Lemma sources_of_blocks_paths
    (fs : FileSystem) (p r : Path) (indexed : list (nat * (nat * pystr))) :
  forall sources,
  sources_of_blocks fs p r indexed = Return sources ->
  Forall (fun source => path source = p) sources
  /\ List.length sources <= List.length indexed.
Proof.
  induction indexed as [|[index [line text]] indexed IH]; intros sources; simpl.
  - intros H. inversion H. split; [constructor | simpl; lia].
  - destruct (strip text) as [|c stripped] eqn:Hstrip.
    + intros H. destruct (IH _ H). split; [assumption | lia].
    + destruct (SNIPPET_DIRECTIVE_RE_match (c :: stripped)) as [target|].
      * destruct (parse_snippet_block fs p line index target r (c :: stripped))
          as [source|e] eqn:Hsnippet; simpl; [|discriminate].
        destruct (sources_of_blocks fs p r indexed) as [others|e]; simpl; [|discriminate].
        intros H. inversion H; subst. destruct (IH _ eq_refl).
        split; [constructor; [eapply parse_snippet_block_path; eauto | assumption]
               | simpl; lia].
      * destruct (parse_json_block p line index text) as [source|e] eqn:Hblock;
          simpl; [|discriminate].
        destruct (sources_of_blocks fs p r indexed) as [others|e]; simpl; [|discriminate].
        intros H. inversion H; subst. destruct (IH _ eq_refl).
        split; [constructor; [eapply parse_json_block_path; eauto | assumption]
               | simpl; lia].
Qed.

(** X5.  Every source read from a Markdown file has that file as its path,
    also when its schema was loaded from an included file, and the file
    gives at most one source for each line that opens a block. *)
Theorem markdown_sources_belong_to_file
    (fs : FileSystem) (p : Path) (text : pystr) (sources : list SchemaSource) :
  fs_read_text fs p = Return text ->
  parse_markdown_json_blocks fs p = Return sources ->
  Forall (fun source => path source = p) sources
  /\ List.length sources <= List.length (filter opens_block (splitlines text)).
Proof.
  intros Hread. unfold parse_markdown_json_blocks. rewrite Hread. cbn [bind].
  intros Hsources. apply sources_of_blocks_paths in Hsources as [Hpaths Hcount].
  split; [exact Hpaths|].
  assert (Henum : forall (A : Type) (xs : list A) k,
            List.length (enumerate k xs) = List.length xs).
  { intros A xs. induction xs; intros k; simpl; auto. }
  rewrite Henum in Hcount.
  pose proof (scan_blocks_counts (splitlines text)) as (Hopen & _). lia.
Qed.

(** X6.  A Markdown file in which no line opens a block gives no source. *)
Theorem markdown_without_fence_has_no_source
    (fs : FileSystem) (p : Path) (text : pystr) :
  fs_read_text fs p = Return text ->
  Forall (fun line => opens_block line = false) (splitlines text) ->
  parse_markdown_json_blocks fs p = Return [].
Proof.
  intros Hread Hnone. unfold parse_markdown_json_blocks. rewrite Hread. cbn [bind].
  assert (Hblocks : scan_blocks (splitlines text) = []).
  { pose proof (scan_blocks_counts (splitlines text)) as (Hopen & _).
    assert (Hfilter : filter opens_block (splitlines text) = []).
    { clear Hopen. induction Hnone as [|line lines Hline _ IH]; simpl; [reflexivity|].
      now rewrite Hline. }
    rewrite Hfilter in Hopen. destruct (scan_blocks (splitlines text)); [reflexivity|].
    simpl in Hopen. lia. }
  now rewrite Hblocks.
Qed.

(** X7.  When no block of a file is an include directive, the block loop
    looks at no other file: its outcome is that of [parse_json_block] on the
    blocks that are not blank, in order, each with the line and the index of
    its block (the blank blocks are counted in the indices).  It gives a
    source for each of them, also for one whose text raises a decode error,
    and raises only what [json.loads] raises that is not a decode error. *)
Theorem blocks_without_directive
    (fs : FileSystem) (p r : Path) (indexed : list (nat * (nat * pystr))) :
  Forall (fun block => SNIPPET_DIRECTIVE_RE_match (strip (snd (snd block))) = None)
         indexed ->
  sources_of_blocks fs p r indexed =
    collect (fun block =>
               parse_json_block p (fst (snd block)) (fst block) (snd (snd block)))
            (filter (fun block => negb (is_blank (snd (snd block)))) indexed)
  /\ (forall e,
        sources_of_blocks fs p r indexed = Raise e ->
        exists block,
          In block indexed
          /\ json_loads (snd (snd block)) = Raise e
          /\ forall exc, e <> ExcJSONDecodeError exc).
Proof.
  intros Hplain.
  assert (Hcollect :
    sources_of_blocks fs p r indexed =
      collect (fun block =>
                 parse_json_block p (fst (snd block)) (fst block) (snd (snd block)))
              (filter (fun block => negb (is_blank (snd (snd block)))) indexed)).
  { induction Hplain as [|[index [line text]] indexed Hblock _ IH]; simpl; [reflexivity|].
    simpl in Hblock. unfold is_blank. simpl.
    destruct (strip text) as [|c stripped]; simpl.
    - exact IH.
    - now rewrite Hblock, IH. }
  split; [exact Hcollect|].
  rewrite Hcollect. clear Hcollect Hplain.
  induction indexed as [|[index [line text]] indexed IH]; intros e; simpl; [discriminate|].
  assert (Hrest : collect (fun block =>
                    parse_json_block p (fst (snd block)) (fst block) (snd (snd block)))
                    (filter (fun block => negb (is_blank (snd (snd block)))) indexed)
                  = Raise e ->
                  exists block, In block ((index, (line, text)) :: indexed)
                    /\ json_loads (snd (snd block)) = Raise e
                    /\ forall exc, e <> ExcJSONDecodeError exc).
  { intros H. destruct (IH _ H) as (block & Hin & Hb). exists block.
    split; [now right | exact Hb]. }
  destruct (negb (is_blank text)); [|exact Hrest]. simpl.
  unfold parse_json_block at 1.
  destruct (json_loads text) as [data|raised] eqn:Hdecode; cbn [catch_decode_error bind].
  - destruct (collect _ _) as [others|e'] eqn:Hothers; cbn [bind]; [discriminate|].
    intros H. inversion H; subst. now apply Hrest.
  - destruct raised as [exc|m|m| |m|m]; cbn [bind];
      try (intros H; inversion H; subst;
           exists (index, (line, text)); split; [now left|]; split;
           [exact Hdecode | intros exc; discriminate]).
    destruct (collect _ _) as [others|e'] eqn:Hothers; cbn [bind]; [discriminate|].
    intros H. inversion H; subst. now apply Hrest.
Qed.

(** *** Discovery *)

Lemma yield_from_each_app {A B : Type} (f : A -> Exc (list B)) (xs ys : list A) :
  yield_from_each f (xs ++ ys) =
  (first <- yield_from_each f xs ;;
   others <- yield_from_each f ys ;;
   Return (first ++ others)).
Proof.
  induction xs as [|x xs IH]; simpl.
  - now destruct (yield_from_each f ys).
  - destruct (f x) as [head|e]; simpl; [|reflexivity].
    rewrite IH. destruct (yield_from_each f xs) as [first|e]; simpl; [|reflexivity].
    destruct (yield_from_each f ys) as [others|e]; simpl; [|reflexivity].
    now rewrite app_assoc.
Qed.

(** X8.  Discovery over a list of paths is discovery over its first part
    followed by discovery over the rest: the sources of the first part come
    first, and an exception raised for the first part is the one that ends
    the whole discovery. *)
Theorem iter_schema_sources_app (fs : FileSystem) (first_paths other_paths : list Path) :
  iter_schema_sources fs (first_paths ++ other_paths) =
  (first <- iter_schema_sources fs first_paths ;;
   others <- iter_schema_sources fs other_paths ;;
   Return (first ++ others)).
Proof. apply yield_from_each_app. Qed.

Lemma answers_returned (outcome : Exc bool) (expected : bool) :
  answers outcome expected = true -> outcome = Return expected.
Proof.
  destruct outcome as [answer|e]; simpl; [|discriminate].
  intros H. apply Bool.eqb_prop in H. now subst.
Qed.

Lemma iter_schema_sources_ignored (fs : FileSystem) (p : Path) (others : list Path) :
  is_ignored fs p = true ->
  iter_schema_sources fs (p :: others) = iter_schema_sources fs others.
Proof.
  unfold is_ignored. rewrite !andb_true_iff, !negb_true_iff. intros [[Hdir Hjson] Hmd].
  apply answers_returned in Hdir.
  unfold iter_schema_sources. simpl. rewrite Hdir. cbn [bind]. rewrite Hjson, Hmd. simpl.
  now destruct (yield_from_each _ others).
Qed.


(** X9.  A path for which [is_dir()] answers no and whose suffix is neither
    [.json] nor [.md] is passed over: discovery gives what it gives without
    the path, and the path is not read. *)
Theorem ignored_path_contributes_nothing
    (fs : FileSystem) (p : Path) (before after : list Path) :
  is_ignored fs p = true ->
  iter_schema_sources fs (before ++ p :: after) =
  iter_schema_sources fs (before ++ after).
Proof.
  intros Hignored. unfold iter_schema_sources. rewrite !yield_from_each_app.
  fold (iter_schema_sources fs before). fold (iter_schema_sources fs (p :: after)).
  fold (iter_schema_sources fs after).
  now rewrite iter_schema_sources_ignored.
Qed.


(** X11.  Given only [.json] files, discovery that returns gives one source
    for each file, in the order of the paths, with the file as its path and
    the text of the path as its label; none of these sources carries a decode
    error. *)
Theorem json_files_give_one_source_each
    (fs : FileSystem) (paths : list Path) (sources : list SchemaSource) :
  Forall (fun p => is_json_file fs p = true) paths ->
  iter_schema_sources fs paths = Return sources ->
  map path sources = paths
  /\ map label sources = map path_str paths
  /\ Forall (fun source => exists data, schema source = PyJson data) sources.
Proof.
  intros Hall. revert sources.
  induction Hall as [|p paths Hp _ IH]; intros sources.
  - intros H. inversion H. repeat split. constructor.
  - unfold is_json_file in Hp. apply andb_true_iff in Hp as [Hdir Hjson].
    apply answers_returned in Hdir.
    change (p :: paths) with ([p] ++ paths).
    unfold iter_schema_sources at 1. rewrite yield_from_each_app.
    fold (iter_schema_sources fs paths). simpl yield_from_each.
    rewrite Hdir. cbn [bind]. rewrite Hjson.
    unfold parse_json_file.
    destruct (fs_read_text fs p) as [text|e]; simpl; [|discriminate].
    destruct (json_loads text) as [data|exc]; simpl; [|discriminate].
    destruct (iter_schema_sources fs paths) as [others|e]; simpl; [|discriminate].
    intros H. inversion H; subst. destruct (IH _ eq_refl) as (Hpaths & Hlabels & Hvalues).
    simpl. repeat split; try congruence.
    constructor; [now exists data | assumption].
Qed.

(** *** The two checks *)

Lemma require_draft07_passes (schema : PyObject) (source_label : pystr) :
  require_draft07 schema source_label = Return [] <->
  exists pairs uri,
    schema = PyJson (JObj pairs)
    /\ dict_get pairs (lit "$schema") = JStr uri
    /\ In uri DRAFT07_URIS.
Proof.
  split.
  - destruct schema as [value|exc]; [|discriminate].
    destruct value as [| | | | |items|pairs]; try discriminate.
    unfold require_draft07.
    destruct (dict_get pairs (lit "$schema")) as [| | | |uri|items|members] eqn:Hget;
      cbn [set_contains bind negb]; try discriminate.
    destruct (existsb (pystr_eqb uri) DRAFT07_URIS) eqn:Hin; cbn [negb]; [|discriminate].
    intros _. exists pairs, uri. split; [reflexivity | split; [exact Hget|]].
    apply existsb_exists in Hin as (known & Hknown & Heq).
    apply pystr_eqb_eq in Heq. now subst.
  - intros (pairs & uri & -> & Hget & Hin). unfold require_draft07. rewrite Hget.
    cbn [set_contains bind].
    assert (Hfound : existsb (pystr_eqb uri) DRAFT07_URIS = true).
    { apply existsb_exists. exists uri. split; [assumption | now apply pystr_eqb_eq]. }
    now rewrite Hfound.
Qed.

Lemma validate_schema_passes (schema : PyObject) (source_label : pystr) :
  validate_schema schema source_label = [] <->
  exists pairs, schema = PyJson (JObj pairs) /\ check_schema pairs = None.
Proof.
  split.
  - destruct schema as [value|exc]; [|discriminate].
    destruct value as [| | | | |items|pairs]; try discriminate. simpl.
    destruct (check_schema pairs) eqn:Hcheck; [discriminate|].
    intros _. now exists pairs.
  - intros (pairs & -> & Hcheck). simpl. now rewrite Hcheck.
Qed.

Lemma require_draft07_at_most_one (schema : PyObject) (source_label : pystr) :
  forall found,
  require_draft07 schema source_label = Return found -> List.length found <= 1.
Proof.
  intros found. destruct schema as [value|exc].
  - destruct value as [| | | | |items|pairs];
      try (intros H; inversion H; simpl; lia).
    unfold require_draft07.
    destruct (set_contains DRAFT07_URIS (dict_get pairs (lit "$schema"))) as [[]|];
      cbn [bind negb]; intros H; inversion H; simpl; lia.
  - intros H; inversion H; simpl; lia.
Qed.

Lemma validate_schema_at_most_one (schema : PyObject) (source_label : pystr) :
  List.length (validate_schema schema source_label) <= 1.
Proof.
  destruct schema as [value|exc]; [|simpl; lia].
  destruct value as [| | | | |items|pairs]; simpl; try lia.
  destruct (check_schema pairs); simpl; lia.
Qed.

(** X12.  A check gives at most one failure for a source: a run reports at
    most two failures for each source, and at most one when the dialect
    requirement is suppressed. *)
Theorem failure_count_bounded
    (allow_missing : bool) (sources : list SchemaSource) (failures : list pystr) :
  check_sources allow_missing sources [] = Return failures ->
  List.length failures
    <= (if allow_missing then 1 else 2) * List.length sources.
Proof.
  destruct allow_missing.
  - rewrite check_sources_allow. intros H. inversion H; subst. clear H.
    induction sources as [|source rest IH]; simpl; [lia|].
    rewrite length_app. unfold structural_failures at 1.
    pose proof (validate_schema_at_most_one (schema source) (label source)). lia.
  - intros H. apply check_sources_require_iff in H as [Hall ->].
    induction Hall as [|source rest Hsource _ IH]; simpl; [lia|].
    rewrite !length_app. unfold structural_failures at 1.
    pose proof (validate_schema_at_most_one (schema source) (label source)).
    pose proof (require_draft07_at_most_one _ _ _
                  (dialect_failures_returned _ Hsource)). lia.
Qed.

Lemma flat_map_nil {A B : Type} (f : A -> list B) (xs : list A) :
  flat_map f xs = [] <-> Forall (fun x => f x = []) xs.
Proof.
  induction xs as [|x xs IH]; simpl.
  - split; auto.
  - split.
    + intros H. apply app_eq_nil in H as [Hx Hxs]. constructor; [assumption | now apply IH].
    + intros H. inversion H as [|? ? Hx Hxs]; subst. rewrite Hx. now apply IH.
Qed.

(** With the dialect requirement in force the checks return no failure
    exactly when every source is an object whose [$schema] entry is one of
    the recognised identifiers and on which the meta-schema validator
    returns; with the requirement suppressed, exactly when every source is an
    object on which the validator returns. *)
Lemma check_sources_pass_iff (sources : list SchemaSource) :
  (check_sources false sources [] = Return [] <-> Forall passes_both_checks sources)
  /\ (check_sources true sources [] = Return [] <->
      Forall passes_structural_check sources).
Proof.
  split.
  - rewrite check_sources_require_iff. split.
    + intros [Hall Hnil]. symmetry in Hnil. apply flat_map_nil in Hnil.
      rewrite Forall_forall in *. intros source Hin.
      specialize (Hall _ Hin). specialize (Hnil _ Hin).
      apply app_eq_nil in Hnil as [Hdialect Hstructural].
      pose proof (dialect_failures_returned _ Hall) as Hreturned.
      rewrite Hdialect in Hreturned.
      apply require_draft07_passes in Hreturned as (pairs & uri & Hschema & Hget & Hknown).
      apply validate_schema_passes in Hstructural as (pairs' & Hschema' & Hcheck).
      rewrite Hschema in Hschema'. inversion Hschema'; subst pairs'.
      now exists pairs, uri.
    + intros Hall.
      assert (Hdialect : forall source, In source sources ->
                require_draft07 (schema source) (label source) = Return []).
      { intros source Hin. rewrite Forall_forall in Hall.
        destruct (Hall _ Hin) as (pairs & uri & Hschema & Hget & Hknown & _).
        apply require_draft07_passes. now exists pairs, uri. }
      split.
      * apply Forall_forall. intros source Hin. exists []. now apply Hdialect.
      * symmetry. apply flat_map_nil. apply Forall_forall. intros source Hin.
        unfold dialect_failures. rewrite (Hdialect _ Hin). simpl.
        rewrite Forall_forall in Hall.
        destruct (Hall _ Hin) as (pairs & uri & Hschema & _ & _ & Hcheck).
        apply validate_schema_passes. now exists pairs.
  - rewrite check_sources_allow. split.
    + intros H. inversion H as [Hnil]. apply flat_map_nil in Hnil.
      eapply Forall_impl; [|exact Hnil]. intros source Hsource.
      now apply validate_schema_passes in Hsource.
    + intros Hall. f_equal. apply flat_map_nil.
      eapply Forall_impl; [|exact Hall]. intros source Hsource.
      now apply validate_schema_passes.
Qed.

(** X13.  What status 0 vouches for.  A run ends with status 0 exactly when
    discovery returns at least one source and every source is an object on
    which the meta-schema validator returns and, unless the dialect
    requirement is suppressed, whose [$schema] entry is one of the recognised
    identifiers. *)
Theorem status_zero_means_verified (fs : FileSystem) (args : Args) :
  exit_status (main fs args) = 0%Z <->
  exists paths sources,
    effective_paths fs args = Return paths
    /\ iter_schema_sources fs paths = Return sources
    /\ sources <> []
    /\ if allow_missing_schema args
       then Forall passes_structural_check sources
       else Forall passes_both_checks sources.
Proof.
  unfold main.
  destruct (effective_paths fs args) as [paths|e]; cbn [bind].
  - destruct (iter_schema_sources fs paths) as [sources|e] eqn:Hiter; cbn [bind].
    + assert (Hpass : check_sources (allow_missing_schema args) sources [] = Return [] <->
                      if allow_missing_schema args
                      then Forall passes_structural_check sources
                      else Forall passes_both_checks sources).
      { destruct (allow_missing_schema args); apply check_sources_pass_iff. }
      destruct sources as [|source rest]; cbn [exit_status].
      * split; [discriminate|]. intros (ps & sources & P & E & Hne & _).
        inversion P; subst. rewrite Hiter in E. inversion E; subst. congruence.
      * destruct (check_sources (allow_missing_schema args) (source :: rest) [])
          as [[|failure failures]|e] eqn:Hchecks; cbn [bind exit_status].
        -- split; [|reflexivity]. intros _. exists paths, (source :: rest).
           split; [reflexivity | split; [assumption | split; [discriminate|]]].
           now apply Hpass.
        -- split; [discriminate|]. intros (ps & sources & P & E & _ & Hall).
           inversion P; subst. rewrite Hiter in E. inversion E; subst.
           apply Hpass in Hall. discriminate.
        -- split; [discriminate|]. intros (ps & sources & P & E & _ & Hall).
           inversion P; subst. rewrite Hiter in E. inversion E; subst.
           apply Hpass in Hall. discriminate.
    + cbn [exit_status]. split; [discriminate|].
      intros (ps & sources & P & E & _). inversion P; subst.
      rewrite Hiter in E. discriminate.
  - cbn [exit_status]. split; [discriminate|]. intros (ps & sources & P & _). discriminate.
Qed.

(** X14.  The option that suppresses the dialect requirement never turns a
    passing run into a failing one: a run that ends with status 0 without the
    option ends with status 0 and prints the same with it. *)
Theorem allow_missing_keeps_success
    (fs : FileSystem) (paths : list Path) (printed : list pystr) :
  main fs (mkArgs paths false) = Return (0%Z, printed) ->
  main fs (mkArgs paths true) = Return (0%Z, printed).
Proof.
  unfold main.
  change (effective_paths fs (mkArgs paths true))
    with (effective_paths fs (mkArgs paths false)).
  cbn [allow_missing_schema].
  destruct (effective_paths fs (mkArgs paths false)) as [given|e];
    cbn [bind]; [|discriminate].
  destruct (iter_schema_sources fs given) as [sources|e]; cbn [bind]; [|discriminate].
  destruct sources as [|source rest]; [discriminate|].
  destruct (check_sources false (source :: rest) []) as [failures|e] eqn:Hchecks;
    cbn [bind]; [|discriminate].
  destruct failures as [|failure failures]; [|discriminate].
  intros Hmain.
  assert (Hpass : check_sources true (source :: rest) [] = Return []).
  { apply (proj2 (check_sources_pass_iff (source :: rest))).
    apply (proj1 (check_sources_pass_iff (source :: rest))) in Hchecks.
    eapply Forall_impl; [|exact Hchecks].
    intros s (pairs & uri & Hschema & _ & _ & Hcheck). now exists pairs. }
  rewrite Hpass. exact Hmain.
Qed.


(** X15.  A [.json] file that holds an object with a recognised [$schema]
    entry and passes the meta-schema validator, given alone, is verified:
    the run prints that one schema was verified and ends with status 0, with
    or without the option. *)
Theorem valid_json_file_is_verified
    (fs : FileSystem) (p : Path) (text : pystr)
    (pairs : list (pystr * JsonValue)) (uri : pystr) (allow_missing : bool) :
  is_json_file fs p = true ->
  fs_read_text fs p = Return text ->
  json_loads text = Return (JObj pairs) ->
  dict_get pairs (lit "$schema") = JStr uri ->
  In uri DRAFT07_URIS ->
  check_schema pairs = None ->
  main fs (mkArgs [p] allow_missing) =
    Return (0%Z, [lit "OK: 1 schema(s) verified as Draft 07"]).
Proof.
  intros Hfile Hread Hdecode Hget Hknown Hcheck.
  unfold is_json_file in Hfile. apply andb_true_iff in Hfile as [Hdir Hjson].
  apply answers_returned in Hdir.
  unfold main, effective_paths. cbn [args_paths allow_missing_schema bind].
  unfold iter_schema_sources. cbn [yield_from_each]. rewrite Hdir. cbn [bind].
  rewrite Hjson.
  unfold parse_json_file. rewrite Hread. cbn [bind]. rewrite Hdecode. cbn [bind app].
  set (source := mkSchemaSource p (path_str p) (PyJson (JObj pairs))).
  assert (Hboth : passes_both_checks source) by now exists pairs, uri.
  assert (Hpass : check_sources allow_missing [source] [] = Return []).
  { destruct allow_missing.
    - apply (proj2 (check_sources_pass_iff [source])). constructor; [|constructor].
      now exists pairs.
    - apply (proj1 (check_sources_pass_iff [source])). now constructor. }
  rewrite Hpass. reflexivity.
Qed.

(** *** Labels *)

(** The label of a source of a Markdown file starts with the path, the start
    line and the index of its block; after the index comes the bracket that
    closes the label or the comma before the included path. *)
Lemma label_of_block_form
    (p : Path) (start_line block_index : nat) (source_label : pystr) :
  source_label = block_label p start_line block_index
  \/ (exists include_path,
        source_label =
          path_str p ++ lit ":" ++ str_of_nat start_line
            ++ lit " (block " ++ str_of_nat block_index
            ++ lit ", include " ++ path_str include_path ++ lit ")") ->
  exists c rest,
    is_decimal_digit c = false
    /\ source_label =
         path_str p ++ lit ":" ++ str_of_nat start_line
           ++ lit " (block " ++ str_of_nat block_index ++ c :: rest.
Proof.
  intros [-> | (include_path & ->)].
  - exists 0x29%N, []. split; reflexivity.
  - exists 0x2C%N, (lit " include " ++ path_str include_path ++ lit ")").
    split; reflexivity.
Qed.

Lemma label_form_index_inj
    (p : Path) (line1 line2 index1 index2 : nat) (c1 c2 : N) (rest1 rest2 : pystr) :
  is_decimal_digit c1 = false -> is_decimal_digit c2 = false ->
  path_str p ++ lit ":" ++ str_of_nat line1
    ++ lit " (block " ++ str_of_nat index1 ++ c1 :: rest1 =
  path_str p ++ lit ":" ++ str_of_nat line2
    ++ lit " (block " ++ str_of_nat index2 ++ c2 :: rest2 ->
  index1 = index2.
Proof.
  intros Hc1 Hc2 Heq.
  apply app_inv_head in Heq. apply (app_inv_head (lit ":")) in Heq.
  change (lit " (block ") with (0x20%N :: lit "(block ") in Heq.
  rewrite <- !app_comm_cons in Heq.
  apply digits_then_other in Heq as [_ Htail];
    try apply str_of_nat_digits; try reflexivity.
  inversion Htail as [Hindex]. clear Htail.
  apply digits_then_other in Hindex as [Hdigits _];
    try apply str_of_nat_digits; try assumption.
  now apply str_of_nat_inj.
Qed.

Lemma parse_snippet_block_label
    (fs : FileSystem) (p r : Path) (start_line block_index : nat)
    (target text : pystr) (source : SchemaSource) :
  parse_snippet_block fs p start_line block_index target r text = Return source ->
  label source = block_label p start_line block_index
  \/ (exists include_path,
        label source =
          path_str p ++ lit ":" ++ str_of_nat start_line
            ++ lit " (block " ++ str_of_nat block_index
            ++ lit ", include " ++ path_str include_path ++ lit ")").
Proof.
  unfold parse_snippet_block.
  destruct (first_existing fs (candidate_paths p target r)) as [[include_path|]|e];
    cbn [bind]; [| |discriminate].
  - destruct (fs_read_text fs include_path) as [content|e]; cbn [bind]; [|discriminate].
    destruct (catch_decode_error (json_loads content)) as [[data|exc]|e]; cbn [bind];
      try discriminate; intros H; inversion H; subst; cbn [label].
    + right. now exists include_path.
    + now left.
  - intros H. inversion H. now left.
Qed.

Lemma parse_json_block_label
    (p : Path) (start_line block_index : nat) (text : pystr) (source : SchemaSource) :
  parse_json_block p start_line block_index text = Return source ->
  label source = block_label p start_line block_index.
Proof.
  unfold parse_json_block.
  destruct (catch_decode_error (json_loads text)); cbn [bind]; [|discriminate].
  intros H. inversion H. reflexivity.
Qed.

Lemma sources_of_blocks_label_forms
    (fs : FileSystem) (p r : Path) (indexed : list (nat * (nat * pystr))) :
  forall sources,
  sources_of_blocks fs p r indexed = Return sources ->
  Forall (fun source =>
            exists block_index start_line c rest,
              In block_index (map fst indexed)
              /\ is_decimal_digit c = false
              /\ label source =
                   path_str p ++ lit ":" ++ str_of_nat start_line
                     ++ lit " (block " ++ str_of_nat block_index ++ c :: rest)
         sources.
Proof.
  induction indexed as [|[index [line text]] indexed IH]; intros sources.
  - intros H. inversion H. constructor.
  - assert (Hweaken : forall others,
              sources_of_blocks fs p r indexed = Return others ->
              Forall (fun source =>
                exists block_index start_line c rest,
                  In block_index (map fst ((index, (line, text)) :: indexed))
                  /\ is_decimal_digit c = false
                  /\ label source =
                       path_str p ++ lit ":" ++ str_of_nat start_line
                         ++ lit " (block " ++ str_of_nat block_index ++ c :: rest)
                others).
    { intros others Hothers. eapply Forall_impl; [|apply (IH _ Hothers)].
      intros source (i & l & c & rest & Hin & Hc & Hlabel).
      exists i, l, c, rest. split; [now right | now split]. }
    cbn [sources_of_blocks].
    destruct (strip text) as [|c0 stripped]; [apply Hweaken|].
    destruct (SNIPPET_DIRECTIVE_RE_match (c0 :: stripped)) as [target|].
    + destruct (parse_snippet_block fs p line index target r (c0 :: stripped))
        as [source|e] eqn:Hsnippet; cbn [bind]; [|discriminate].
      destruct (sources_of_blocks fs p r indexed) as [others|e]; cbn [bind]; [|discriminate].
      intros H. inversion H; subst. constructor; [|now apply Hweaken].
      destruct (label_of_block_form p line index (label source)
                  (parse_snippet_block_label _ _ _ _ _ _ _ _ Hsnippet))
        as (c & rest & Hc & Hlabel).
      exists index, line, c, rest. split; [now left | now split].
    + destruct (parse_json_block p line index text) as [source|e] eqn:Hblock;
        cbn [bind]; [|discriminate].
      destruct (sources_of_blocks fs p r indexed) as [others|e]; cbn [bind]; [|discriminate].
      intros H. inversion H; subst. constructor; [|now apply Hweaken].
      destruct (label_of_block_form p line index (label source))
        as (c & rest & Hc & Hlabel).
      { left. eapply parse_json_block_label; eauto. }
      exists index, line, c, rest. split; [now left | now split].
Qed.

Lemma sources_of_blocks_labels_distinct
    (fs : FileSystem) (p r : Path) (indexed : list (nat * (nat * pystr))) :
  NoDup (map fst indexed) ->
  forall sources,
  sources_of_blocks fs p r indexed = Return sources ->
  NoDup (map label sources).
Proof.
  induction indexed as [|[index [line text]] indexed IH]; intros Hdistinct sources.
  - intros H. inversion H. constructor.
  - cbn [map fst] in Hdistinct. inversion Hdistinct as [|? ? Hfresh Hrest]; subst.
    assert (Hhead : forall source others,
              sources_of_blocks fs p r indexed = Return others ->
              (exists c rest,
                 is_decimal_digit c = false
                 /\ label source =
                      path_str p ++ lit ":" ++ str_of_nat line
                        ++ lit " (block " ++ str_of_nat index ++ c :: rest) ->
              NoDup (map label (source :: others))).
    { intros source others Hothers (c & rest & Hc & Hlabel).
      cbn [map]. constructor; [|now apply IH].
      intros Hin. apply in_map_iff in Hin as (other & Hsame & Hother).
      pose proof (sources_of_blocks_label_forms _ _ _ _ _ Hothers) as Hforms.
      rewrite Forall_forall in Hforms.
      destruct (Hforms _ Hother) as (i & l & c' & rest' & Hi & Hc' & Hlabel').
      rewrite Hlabel, Hlabel' in Hsame.
      apply label_form_index_inj in Hsame; try assumption.
      subst i. contradiction. }
    cbn [sources_of_blocks].
    destruct (strip text) as [|c0 stripped]; [now apply IH|].
    destruct (SNIPPET_DIRECTIVE_RE_match (c0 :: stripped)) as [target|].
    + destruct (parse_snippet_block fs p line index target r (c0 :: stripped))
        as [source|e] eqn:Hsnippet; cbn [bind]; [|discriminate].
      destruct (sources_of_blocks fs p r indexed) as [others|e] eqn:Hothers;
        cbn [bind]; [|discriminate].
      intros H. inversion H; subst. apply Hhead; [reflexivity|].
      apply label_of_block_form. eapply parse_snippet_block_label; eauto.
    + destruct (parse_json_block p line index text) as [source|e] eqn:Hblock;
        cbn [bind]; [|discriminate].
      destruct (sources_of_blocks fs p r indexed) as [others|e] eqn:Hothers;
        cbn [bind]; [|discriminate].
      intros H. inversion H; subst. apply Hhead; [reflexivity|].
      apply label_of_block_form. left. eapply parse_json_block_label; eauto.
Qed.

Lemma enumerate_indices {A : Type} (xs : list A) :
  forall start, map fst (enumerate start xs) = seq start (List.length xs).
Proof.
  induction xs as [|x xs IH]; intros start; simpl; [reflexivity|]. now rewrite IH.
Qed.

(** X16.  The sources of one Markdown file have labels that differ from one
    another, so that a failure line tells which block it is about. *)
Theorem markdown_labels_distinct
    (fs : FileSystem) (p : Path) (sources : list SchemaSource) :
  parse_markdown_json_blocks fs p = Return sources ->
  NoDup (map label sources).
Proof.
  unfold parse_markdown_json_blocks.
  destruct (fs_read_text fs p) as [text|e]; cbn [bind]; [|discriminate].
  apply sources_of_blocks_labels_distinct.
  rewrite enumerate_indices. apply seq_NoDup.
Qed.

(** *** What ends a run before its report *)








End MoreProperties.

(* ------------------------------------------------------------------ *)
(** ** The further properties on the example trees *)

Lemma fences_ignore_padding_witness :
  Forall (fun c => isspace c = true) (lit "  ")
  /\ Forall (fun c => isspace c = true) (lit " ")
  /\ opens_block (RT := Example.runtime) (lit "  " ++ lit "```json" ++ lit " ") =
       opens_block (RT := Example.runtime) (lit "```json")
  /\ opens_block (RT := Example.runtime) (lit "```json") = true.
Proof.
  assert (Hbefore : Forall (fun c => isspace c = true) (lit "  ")) by (repeat constructor).
  assert (Hafter : Forall (fun c => isspace c = true) (lit " ")) by (repeat constructor).
  split; [exact Hbefore|]. split; [exact Hafter|]. split; [|reflexivity].
  exact (proj1 (fences_ignore_padding (RT := Example.runtime) scan_init 1
                  (lit "  ") (lit "```json") (lit " ") Hbefore Hafter)).
Defined.

Lemma markdown_sources_belong_to_file_witness :
  fs_read_text (Example.file_system Example.tree_with_page) Example.page =
    Return Example.page_text
  /\ parse_markdown_json_blocks (Example.file_system Example.tree_with_page) Example.page =
       Return Example.page_sources
  /\ Forall (fun source => path source = Example.page) Example.page_sources
  /\ List.length Example.page_sources
       <= List.length (filter (opens_block (RT := Example.runtime))
                         (splitlines Example.page_text)).
Proof.
  assert (Hread : fs_read_text (Example.file_system Example.tree_with_page) Example.page =
                  Return Example.page_text) by (vm_compute; reflexivity).
  assert (Hsources :
    parse_markdown_json_blocks (Example.file_system Example.tree_with_page) Example.page =
      Return Example.page_sources) by (vm_compute; reflexivity).
  split; [exact Hread|]. split; [exact Hsources|].
  exact (markdown_sources_belong_to_file _ _ _ _ Hread Hsources).
Defined.

Lemma markdown_without_fence_has_no_source_witness :
  fs_read_text (Example.file_system Example.tree_with_notes) Example.notes =
    Return Example.notes_text
  /\ Forall (fun line => opens_block (RT := Example.runtime) line = false)
       (splitlines Example.notes_text)
  /\ parse_markdown_json_blocks (Example.file_system Example.tree_with_notes)
       Example.notes = Return [].
Proof.
  assert (Hread : fs_read_text (Example.file_system Example.tree_with_notes) Example.notes =
                  Return Example.notes_text) by reflexivity.
  assert (Hnone : Forall (fun line => opens_block (RT := Example.runtime) line = false)
                    (splitlines Example.notes_text)) by (repeat constructor).
  split; [exact Hread|]. split; [exact Hnone|].
  exact (markdown_without_fence_has_no_source _ _ _ Hread Hnone).
Defined.

Lemma blocks_without_directive_witness :
  Forall (fun block => SNIPPET_DIRECTIVE_RE_match (strip (snd (snd block))) = None)
    Example.malformed_and_valid_blocks
  /\ sources_of_blocks (Example.file_system Example.tree_with_malformed_block)
       Example.schemas_page [] Example.malformed_and_valid_blocks =
     Return [ mkSchemaSource Example.schemas_page (lit "docs/schemas.md:2 (block 1)")
                (PyDecodeError Example.open_brace_error);
              mkSchemaSource Example.schemas_page (lit "docs/schemas.md:5 (block 2)")
                (PyJson (JObj Example.point_pairs)) ].
Proof.
  assert (Hplain :
    Forall (fun block => SNIPPET_DIRECTIVE_RE_match (strip (snd (snd block))) = None)
      Example.malformed_and_valid_blocks) by (repeat constructor).
  split; [exact Hplain|].
  exact (proj1 (blocks_without_directive
                  (Example.file_system Example.tree_with_malformed_block)
                  Example.schemas_page [] Example.malformed_and_valid_blocks Hplain)).
Defined.

Lemma markdown_labels_distinct_witness :
  parse_markdown_json_blocks (Example.file_system Example.tree_with_page) Example.page =
    Return Example.page_sources
  /\ NoDup (map label Example.page_sources).
Proof.
  assert (Hsources :
    parse_markdown_json_blocks (Example.file_system Example.tree_with_page) Example.page =
      Return Example.page_sources) by (vm_compute; reflexivity).
  split; [exact Hsources|].
  exact (markdown_labels_distinct _ _ _ Hsources).
Defined.

Lemma ignored_path_contributes_nothing_witness :
  is_ignored (Example.file_system Example.tree_with_page) Example.readme = true
  /\ iter_schema_sources (Example.file_system Example.tree_with_page)
       ([Example.page] ++ Example.readme :: [Example.point_file]) =
     iter_schema_sources (Example.file_system Example.tree_with_page)
       ([Example.page] ++ [Example.point_file]).
Proof.
  assert (Hignored : is_ignored (Example.file_system Example.tree_with_page)
                       Example.readme = true) by reflexivity.
  split; [exact Hignored|].
  exact (ignored_path_contributes_nothing _ Example.readme [Example.page]
           [Example.point_file] Hignored).
Defined.


Lemma json_files_give_one_source_each_witness :
  Forall (fun p => is_json_file (Example.file_system Example.tree_with_page) p = true)
    [Example.point_file]
  /\ iter_schema_sources (Example.file_system Example.tree_with_page)
       [Example.point_file] = Return [Example.point_source]
  /\ map path [Example.point_source] = [Example.point_file]
  /\ map label [Example.point_source] = map path_str [Example.point_file]
  /\ Forall (fun source => exists data, schema source = PyJson data)
       [Example.point_source].
Proof.
  assert (Hfiles : Forall (fun p =>
            is_json_file (Example.file_system Example.tree_with_page) p = true)
            [Example.point_file]) by (repeat constructor).
  assert (Hsources : iter_schema_sources (Example.file_system Example.tree_with_page)
                       [Example.point_file] = Return [Example.point_source])
    by (vm_compute; reflexivity).
  split; [exact Hfiles|]. split; [exact Hsources|].
  exact (json_files_give_one_source_each _ _ _ Hfiles Hsources).
Defined.


Lemma failure_count_bounded_witness :
  check_sources false Example.page_sources [] = Return Example.page_failures
  /\ List.length Example.page_failures <= 2 * List.length Example.page_sources.
Proof.
  assert (Hchecks : check_sources false Example.page_sources [] =
                    Return Example.page_failures) by (vm_compute; reflexivity).
  split; [exact Hchecks|].
  exact (failure_count_bounded false _ _ Hchecks).
Defined.

Lemma allow_missing_keeps_success_witness :
  main (Example.file_system Example.tree_with_page) (mkArgs [Example.point_file] false) =
    Return (0%Z, [lit "OK: 1 schema(s) verified as Draft 07"])
  /\ main (Example.file_system Example.tree_with_page) (mkArgs [Example.point_file] true) =
       Return (0%Z, [lit "OK: 1 schema(s) verified as Draft 07"]).
Proof.
  assert (Hpass :
    main (Example.file_system Example.tree_with_page) (mkArgs [Example.point_file] false) =
      Return (0%Z, [lit "OK: 1 schema(s) verified as Draft 07"]))
    by (vm_compute; reflexivity).
  split; [exact Hpass|].
  exact (allow_missing_keeps_success _ _ _ Hpass).
Defined.


Lemma valid_json_file_is_verified_witness :
  is_json_file (Example.file_system Example.tree_with_page) Example.point_file = true
  /\ fs_read_text (Example.file_system Example.tree_with_page) Example.point_file =
       Return Example.draft07_text
  /\ @json_loads Example.runtime Example.draft07_text = Return (JObj Example.point_pairs)
  /\ dict_get Example.point_pairs (lit "$schema") =
       JStr (lit "http://json-schema.org/draft-07/schema#")
  /\ In (lit "http://json-schema.org/draft-07/schema#") DRAFT07_URIS
  /\ @check_schema Example.runtime Example.point_pairs = None
  /\ main (Example.file_system Example.tree_with_page) (mkArgs [Example.point_file] true) =
       Return (0%Z, [lit "OK: 1 schema(s) verified as Draft 07"]).
Proof.
  assert (H1 : is_json_file (Example.file_system Example.tree_with_page)
                 Example.point_file = true) by reflexivity.
  assert (H2 : fs_read_text (Example.file_system Example.tree_with_page)
                 Example.point_file = Return Example.draft07_text) by reflexivity.
  assert (H3 : @json_loads Example.runtime Example.draft07_text = Return (JObj Example.point_pairs))
    by (vm_compute; reflexivity).
  assert (H4 : dict_get Example.point_pairs (lit "$schema") =
               JStr (lit "http://json-schema.org/draft-07/schema#")) by reflexivity.
  assert (H5 : In (lit "http://json-schema.org/draft-07/schema#") DRAFT07_URIS)
    by (left; reflexivity).
  assert (H6 : @check_schema Example.runtime Example.point_pairs = None) by reflexivity.
  split; [exact H1|]. split; [exact H2|]. split; [exact H3|]. split; [exact H4|].
  split; [exact H5|]. split; [exact H6|].
  exact (valid_json_file_is_verified _ _ _ _ _ true H1 H2 H3 H4 H5 H6).
Defined.
